(** * covid19API: the acquisition, normalisation and query pipeline

    A shallow embedding of [app/utils/get_data.py] and [app/main.py].

    Python values are modelled by small inductive types, exceptions by an
    explicit [result] type, the remote world (clock, HTTP status of the daily
    reports, Redis) by explicit environments and state passing.  Strings are
    sequences of 8-bit characters; [str.lower] is the ASCII one. *)

From Stdlib Require Import ZArith List String Ascii Bool Lia QArith.
From stdpp Require Import gmap strings.
Import ListNotations.

Set Warnings "-register-all".

Local Open Scope string_scope.
Local Open Scope Z_scope.

(** ** Python built-ins used by the two files *)

Module Py.

(** An exception instance: its class and [str(e)]. *)
Record pyexn := Exn { exn_class : string; exn_message : string }.

Inductive result (A : Type) : Type :=
| Ok (a : A)
| Raise (e : pyexn).
Arguments Ok {A} a.
Arguments Raise {A} e.

#[global] Instance result_ret : MRet result := fun A a => Ok a.
#[global] Instance result_bind : MBind result := fun A B k r =>
  match r with
  | Ok a => k a
  | Raise e => Raise e
  end.

(** [str.isascii]: every character is below 128. *)
Fixpoint is_ascii (s : string) : bool :=
  match s with
  | EmptyString => true
  | String c s' => Nat.ltb (nat_of_ascii c) 128 && is_ascii s'
  end.

(** [str.lower], on ASCII letters: it is [str.lower] on the strings that
    [is_ascii] accepts.  What is proved from a property of [lower] itself
    (it keeps the length, it is idempotent) is stated for such strings. *)
Definition lower_ascii (c : ascii) : ascii :=
  let n := nat_of_ascii c in
  if (Nat.leb 65 n && Nat.leb n 90)%bool then ascii_of_nat (n + 32) else c.

Fixpoint lower (s : string) : string :=
  match s with
  | EmptyString => EmptyString
  | String c s' => String (lower_ascii c) (lower s')
  end.

(** [needle in hay] on strings: [needle] occurs as a substring. *)
Fixpoint str_in (needle hay : string) : bool :=
  if String.prefix needle hay then true
  else match hay with
       | EmptyString => false
       | String _ hay' => str_in needle hay'
       end.

(** [x in xs] for a list of strings. *)
Definition in_list (x : string) (xs : list string) : bool :=
  existsb (String.eqb x) xs.

(** [s.split(sep)] for a one-character separator: never empty. *)
Fixpoint split (sep : ascii) (s : string) : list string :=
  match s with
  | EmptyString => [EmptyString]
  | String c s' =>
      if Ascii.eqb c sep then EmptyString :: split sep s'
      else match split sep s' with
           | seg :: segs => String c seg :: segs
           | [] => [String c EmptyString]
           end
  end.

(** [xs[0]] and [xs[-1]]; both raise IndexError on the empty list. *)
Definition IndexError : pyexn := Exn "IndexError" "list index out of range".

Definition first {A} (xs : list A) : result A :=
  match xs with
  | x :: _ => Ok x
  | [] => Raise IndexError
  end.

Fixpoint last_item {A} (xs : list A) : result A :=
  match xs with
  | [] => Raise IndexError
  | [x] => Ok x
  | _ :: xs' => last_item xs'
  end.

(** JSON-like values handled by the route handlers. *)
Inductive value : Type :=
| VNone
| VInt (z : Z)
| VStr (s : string)
| VList (items : list value)
| VDict (items : list (string * value)).

(** A [dict] with string keys, in insertion order, keys pairwise distinct. *)
Definition dict := list (string * value).

Fixpoint dict_get {V} (d : list (string * V)) (k : string) : option V :=
  match d with
  | [] => None
  | (k', v) :: d' => if String.eqb k' k then Some v else dict_get d' k
  end.

(** [d[k] = v]: overwrite in place, or append a new key. *)
Fixpoint dict_set {V} (d : list (string * V)) (k : string) (v : V)
  : list (string * V) :=
  match d with
  | [] => [(k, v)]
  | (k', v') :: d' =>
      if String.eqb k' k then (k', v) :: d' else (k', v') :: dict_set d' k v
  end.

Definition KeyError (k : string) : pyexn := Exn "KeyError" ("'" ++ k ++ "'").

(** [d[k]] *)
Definition getitem {V} (d : list (string * V)) (k : string) : result V :=
  match dict_get d k with
  | Some v => Ok v
  | None => Raise (KeyError k)
  end.

End Py.

(** ** app/utils/get_data.py *)

Module get_data.
Import Py.

(** *** [get_data_lookup_table] *)

(** One record of [lookup_df.to_dict('records')], after the selection of the
    two columns.  [K] is the type of the [iso2] cells as [dict] keys (a code,
    or the one NaN object pandas uses for an empty cell). *)
Record lookup_row (K V : Type) := LookupRow { iso2 : K; Country_Region : V }.
Arguments LookupRow {K V} iso2 Country_Region.
Arguments iso2 {K V} _.
Arguments Country_Region {K V} _.

(** [{v['iso2']: v['Country_Region'] for v in data}] *)
Definition get_data_lookup_table `{Countable K} {V}
    (data : list (lookup_row K V)) : gmap K V :=
  foldl (fun acc v => <[iso2 v := Country_Region v]> acc) ∅ data.

(** *** [get_data_daily_reports] *)

(** A cell of a table read by [pd.read_csv]: missing ([NaN]), an integer, a
    finite float (a rational), an infinite float, or text. *)
Inductive cell : Type :=
| NaN
| CInt (z : Z)
| CFloat (q : Q)
| CInf
| CStr (s : string).

(** A DataFrame, column by column: the number of rows and the named
    columns. *)
Record DataFrame := { index : nat; columns : list (string * list cell) }.

Definition concerned_columns : list string :=
  ["Confirmed"; "Deaths"; "Recovered"; "Active"].

(** The columns of [names] that [df] does not have. *)
Definition absent (df : DataFrame) (names : list string) : list string :=
  List.filter (fun n => match dict_get (columns df) n with
                        | Some _ => false
                        | None => true
                        end) names.

(** [repr] of a list of plain names: ['a', 'b']. *)
Fixpoint repr_items (names : list string) : string :=
  match names with
  | [] => EmptyString
  | [n] => "'" ++ n ++ "'"
  | n :: names' => "'" ++ n ++ "', " ++ repr_items names'
  end.

Definition repr_list (names : list string) : string :=
  "[" ++ repr_items names ++ "]".

(** The KeyError pandas raises on [df[names]] when [missing], not empty, are
    the absent columns; the text of a KeyError is the [repr] of its
    message, here between double quotes. *)
Definition KeyError_columns (names missing : list string) : pyexn :=
  let quote := String (ascii_of_nat 34) EmptyString in
  Exn "KeyError"
      (quote ++
       (if Nat.eqb (length missing) (length names)
        then "None of [Index(" ++ repr_list names
             ++ ", dtype='object')] are in the [columns]"
        else repr_list missing ++ " not in index")
       ++ quote).

(** [df[names]], for names that are pairwise distinct: a KeyError that names
    every absent column when there is one. *)
Definition select (df : DataFrame) (names : list string)
  : result (list (string * list cell)) :=
  match absent df names with
  | [] => mapM (fun n => c ← getitem (columns df) n; Ok (n, c)) names
  | missing => Raise (KeyError_columns names missing)
  end.

(** [df[names] = sub] *)
Definition assign (df : DataFrame) (sub : list (string * list cell))
  : DataFrame :=
  foldl (fun d nc => {| index := index d;
                        columns := dict_set (columns d) (fst nc) (snd nc) |})
        df sub.

Definition map_cells (f : cell -> cell) (sub : list (string * list cell))
  : list (string * list cell) :=
  map (fun nc => (fst nc, map f (snd nc))) sub.

(** [.fillna(0)]; in a float column the fill value is 0.0, which the cast
    below makes the integer 0 as well. *)
Definition fillna0 (c : cell) : cell :=
  match c with
  | NaN => CInt 0
  | _ => c
  end.

(** [.replace('', 0)] *)
Definition replace_empty0 (c : cell) : cell :=
  match c with
  | CStr EmptyString => CInt 0
  | _ => c
  end.

Definition OverflowError (msg : string) : pyexn := Exn "OverflowError" msg.
Definition ValueError (msg : string) : pyexn := Exn "ValueError" msg.

(** Whether an integer fits a 64-bit signed integer. *)
Definition fits_int64 (z : Z) : bool := (- 2 ^ 63 <=? z) && (z <? 2 ^ 63).

(** A Python int stored into an array of 64-bit signed integers. *)
Definition store_int64 (z : Z) : result cell :=
  if fits_int64 z then Ok (CInt z)
  else Raise (OverflowError "Python int too large to convert to C long").

(** The cast of an integer of another 64-bit integer type: modulo 2^64. *)
Definition wrap64 (z : Z) : Z := (z + 2 ^ 63) mod 2 ^ 64 - 2 ^ 63.

(** Truncation toward zero of a finite float. *)
Definition truncate (q : Q) : Z := Z.quot (Qnum q) (Z.pos (Qden q)).

(** The cast of a finite float: its integer part when that fits 64 bits,
    and otherwise the smallest 64-bit integer, which is what the conversion
    gives on x86-64 (no error is raised). *)
Definition cast_float (q : Q) : Z :=
  if fits_int64 (truncate q) then truncate q else - 2 ^ 63.

(** [.astype(int)] on one cell.  An integer cell is a cell of an int64 or
    uint64 column; a float cell one of a float64 column; a text is read by
    Python's [int], here [int_of_str], and stored. *)
Definition astype_int (int_of_str : string -> result Z) (c : cell)
  : result cell :=
  match c with
  | CInt z => Ok (CInt (wrap64 z))
  | CFloat q => Ok (CInt (cast_float q))
  | NaN | CInf =>
      Raise (ValueError "Cannot convert non-finite values (NA or inf) to integer")
  | CStr s => z ← int_of_str s; store_int64 z
  end.

Definition astype (int_of_str : string -> result Z)
    (sub : list (string * list cell)) : result (list (string * list cell)) :=
  mapM (fun nc => col ← mapM (astype_int int_of_str) (snd nc); Ok (fst nc, col))
       sub.

(** Lines 46-51: the pre-processing of the four numeric columns, and
    [df['Last_Update'] = current_datetime]. *)
Definition preprocess (int_of_str : string -> result Z) (df : DataFrame)
    (current_datetime : string) : result DataFrame :=
  sub ← select df concerned_columns;
  let df := assign df (map_cells fillna0 sub) in
  sub ← select df concerned_columns;
  let df := assign df (map_cells replace_empty0 sub) in
  sub ← select df concerned_columns;
  sub ← astype int_of_str sub;
  let df := assign df sub in
  Ok (assign df [("Last_Update", repeat (CStr current_datetime) (index df))]).

(** The remote world of one call.  Dates are proleptic Gregorian ordinals
    (0001-01-01 is day 1), as in [datetime.toordinal]; the URL of a daily
    report is a function of its date.
    - [utcnow n]: the date read by the [n]-th call of [datetime.utcnow()];
    - [status_code d]: the status of [requests.get] on the report of day [d];
    - [read_csv d]: the table [pd.read_csv] parses from that report. *)
Record env := {
  utcnow : nat -> Z;
  status_code : Z -> nat;
  read_csv : Z -> result DataFrame
}.

(** [date - timedelta(days)]: dates before 0001-01-01 do not exist. *)
Definition date_sub (date : Z) (days : nat) : result Z :=
  if date - Z.of_nat days <? 1
  then Raise (OverflowError "date value out of range")
  else Ok (date - Z.of_nat days).

(** Lines 38-41, the [while] loop, entered with [current_datetime] and
    [time_delta]; iteration [k] makes the [k]-th reading of the clock.
    [None]: still probing after [fuel] requests. *)
Fixpoint probe (fuel : nat) (e : env) (time_delta : nat)
    (current_datetime : Z) : option (result Z) :=
  match fuel with
  | O => None
  | S fuel' =>
      if Nat.eqb (status_code e current_datetime) 404 then
        match date_sub (utcnow e time_delta) time_delta with
        | Ok date => probe fuel' e (S time_delta) date
        | Raise exn => Some (Raise exn)
        end
      else Some (Ok current_datetime)
  end.

(** Lines 33-41: the date of the report that is read. *)
Definition latest_report_date (fuel : nat) (e : env) : option (result Z) :=
  probe fuel e 1 (utcnow e 0).

(** The whole function; [strftime] renders a date as ['%m-%d-%Y']. *)
Definition get_data_daily_reports (strftime : Z -> string)
    (int_of_str : string -> result Z) (fuel : nat) (e : env)
  : option (result DataFrame) :=
  match latest_report_date fuel e with
  | None => None
  | Some found =>
      Some (date ← found;
            df ← read_csv e date;
            preprocess int_of_str df (strftime date))
  end.

(** *** [get_data_time_series] and [get_US_time_series] *)

(** [.fillna('')] *)
Definition fillna_empty (c : cell) : cell :=
  match c with
  | NaN => CStr EmptyString
  | _ => c
  end.

(** [df.fillna('')] *)
Definition fillna_df (df : DataFrame) : DataFrame :=
  {| index := index df;
     columns := map (fun nc => (fst nc, map fillna_empty (snd nc)))
                    (columns df) |}.

(** The loop of [get_data_time_series] over the remaining categories.
    [read category] is [pd.read_csv] on the URL of that category. *)
Fixpoint time_series_loop (read : string -> result DataFrame)
    (categories : list string) (dataframes : list (string * DataFrame))
  : result (list (string * DataFrame)) :=
  match categories with
  | [] => Ok dataframes
  | category :: categories' =>
      df ← read category;
      let df := fillna_df df in
      time_series_loop read categories' (dict_set dataframes category df)
  end.

(** [CATEGORIES] is [JHU_CSSE_FILE_PATHS['CATEGORIES']] of file_paths.py. *)
Definition get_data_time_series (CATEGORIES : list string)
    (read : string -> result DataFrame) : result (list (string * DataFrame)) :=
  time_series_loop read CATEGORIES [].

(** [.astype(float)] on one cell.  The empty string is no float; [to_float]
    is NumPy's conversion of any other cell. *)
Definition astype_float (to_float : cell -> result cell) (c : cell)
  : result cell :=
  match c with
  | CStr EmptyString =>
      Raise (ValueError "could not convert string to float: ''")
  | _ => to_float c
  end.

(** A cast applied to every cell of the selected columns. *)
Definition cast_columns (cast : cell -> result cell)
    (sub : list (string * list cell)) : result (list (string * list cell)) :=
  mapM (fun nc => col ← mapM cast (snd nc); Ok (fst nc, col)) sub.

(** The loop of [get_US_time_series]. *)
Fixpoint US_time_series_loop (to_float : cell -> result cell)
    (read : string -> result DataFrame) (categories : list string)
    (dataframes : list (string * DataFrame))
  : result (list (string * DataFrame)) :=
  match categories with
  | [] => Ok dataframes
  | category :: categories' =>
      df ← read category;
      let df := fillna_df df in
      sub ← select df ["Lat"; "Long_"];
      sub ← cast_columns (astype_float to_float) sub;
      let df := assign df sub in
      US_time_series_loop to_float read categories'
                          (dict_set dataframes category df)
  end.

(** [CATEGORIES[:-1]]: all categories but the last. *)
Definition get_US_time_series (CATEGORIES : list string)
    (to_float : cell -> result cell) (read : string -> result DataFrame)
  : result (list (string * DataFrame)) :=
  US_time_series_loop to_float read (removelast CATEGORIES) [].

(** *** [get_data]: the clean-up of the country names (lines 103-104) *)

(** [str.isspace] on one ASCII character; [strip] below is [str.strip] on
    the names that [is_ascii] accepts. *)
Definition isspace (c : ascii) : bool :=
  let n := nat_of_ascii c in
  (Nat.leb 9 n && Nat.leb n 13) || (Nat.leb 28 n && Nat.leb n 32).

Fixpoint lstrip (s : string) : string :=
  match s with
  | EmptyString => EmptyString
  | String c s' => if isspace c then lstrip s' else s
  end.

Fixpoint rstrip (s : string) : string :=
  match s with
  | EmptyString => EmptyString
  | String c s' =>
      match rstrip s' with
      | EmptyString => if isspace c then EmptyString else String c EmptyString
      | r => String c r
      end
  end.

(** [country_name.strip()] *)
Definition strip (s : string) : string := rstrip (lstrip s).

(** [.str.replace(' ', '_')] on one name. *)
Fixpoint replace_spaces (s : string) : string :=
  match s with
  | EmptyString => EmptyString
  | String c s' =>
      String (if Ascii.eqb c " " then "_"%char else c) (replace_spaces s')
  end.

(** What the two lines make of one name of the [Country/Region] column. *)
Definition clean_country_name (country_name : string) : string :=
  replace_spaces (strip country_name).

End get_data.

(** ** app/main.py *)

Module main.
Import Py.

Definition AttributeError (msg : string) : pyexn := Exn "AttributeError" msg.
Definition TypeError (msg : string) : pyexn := Exn "TypeError" msg.

(** *** Operations of the handlers on JSON-like values *)

(** [v[k]] for a string key. *)
Definition subscript (v : value) (k : string) : result value :=
  match v with
  | VDict d => getitem d k
  | _ => Raise (TypeError "indices must be integers")
  end.

(** [v[k] = x] for a string key. *)
Definition setitem (v : value) (k : string) (x : value) : result value :=
  match v with
  | VDict d => Ok (VDict (dict_set d k x))
  | _ => Raise (TypeError "object does not support item assignment")
  end.

Fixpoint chars (s : string) : list value :=
  match s with
  | EmptyString => []
  | String c s' => VStr (String c EmptyString) :: chars s'
  end.

(** [for i in v]: the elements of a list, the keys of a dict, the characters
    of a string. *)
Definition iter (v : value) : result (list value) :=
  match v with
  | VList items => Ok items
  | VDict d => Ok (map (fun kv => VStr (fst kv)) d)
  | VStr s => Ok (chars s)
  | _ => Raise (TypeError "object is not iterable")
  end.

(** [v.items()] *)
Definition items (v : value) : result dict :=
  match v with
  | VDict d => Ok d
  | _ => Raise (AttributeError "object has no attribute 'items'")
  end.

(** [i.get("location").lower()] *)
Definition location_lower (i : value) : result string :=
  match i with
  | VDict d =>
      match dict_get d "location" with
      | Some (VStr s) => Ok (lower s)
      | _ => Raise (AttributeError "object has no attribute 'lower'")
      end
  | _ => Raise (AttributeError "object has no attribute 'get'")
  end.

(** [[x for x in xs if p(x)]] where [p] may raise. *)
Fixpoint filterM {A} (p : A -> result bool) (xs : list A) : result (list A) :=
  match xs with
  | [] => Ok []
  | x :: xs' =>
      b ← p x;
      rest ← filterM p xs';
      Ok (if b : bool then x :: rest else rest)
  end.

(** *** The facades (models/covid_model.py, models/covid_model_api_v2.py)

    Only their interface is used here: each method call returns a value or
    raises. *)
Record NovelCoronaAPI := {
  v1_get_current_status : bool -> result value;
  v1_get_time_series : result value
}.

Record NovelCoronaAPIv2 := {
  v2_get_current : result value;
  v2_get_total : result value;
  v2_get_confirmed : result value;
  v2_get_deaths : result value;
  v2_get_recovered : result value;
  v2_get_active : result value;
  v2_get_time_series : string -> result value
}.

(** What a route handler does: return a body (HTTP 200), raise an
    [HTTPException], or let another exception through. *)
Inductive detail : Type :=
| DetailStr (s : string)
| DetailExn (e : pyexn).

Inductive response : Type :=
| Return (body : value)
| HTTPException (status_code : nat) (d : detail)
| Uncaught (e : pyexn).

Definition item_not_found : response :=
  HTTPException 404 (DetailStr "Item not found").

(** *** [reload_model_api_v2] *)

Definition bytes := list Init.Byte.byte.

(** Redis: each key holds a value and the time (in seconds) it expires at;
    a key is served until the clock has passed that time. *)
Record entry := { ent_value : bytes; ent_expires : Z }.

Definition redis_get (now : Z) (store : gmap string entry) (key : string)
  : option bytes :=
  match store !! key with
  | Some en => if now <=? ent_expires en then Some (ent_value en) else None
  | None => None
  end.

Definition redis_setex (now : Z) (store : gmap string entry) (key : string)
    (ttl : Z) (v : bytes) : gmap string entry :=
  <[key := {| ent_value := v; ent_expires := now + ttl |}]> store.

(** Truth value of what [redis.get] returns. *)
Definition truthy (b : option bytes) : bool :=
  match b with
  | Some (_ :: _) => true
  | _ => false
  end.

(** The store, and the times at which [NovelCoronaAPIv2()] was invoked. *)
Record world := { store : gmap string entry; builds : list Z }.

(** The times of the two Redis operations of one call. *)
Record call_times := { t_check : Z; t_use : Z }.

(** The wrapper; [func] reads the global [novel_corona_api_v2], here its
    argument.  [builder t] is [NovelCoronaAPIv2()] run at time [t]. *)
Definition reload_model_api_v2 {M R : Type}
    (builder : Z -> result M) (dumps : M -> result bytes)
    (loads : bytes -> result M) (func : M -> R)
    (t : call_times) (w : world) : world * result R :=
  if negb (truthy (redis_get (t_check t) (store w) "api_2_model")) then
    let w := {| store := store w; builds := builds w ++ [t_check t] |} in
    match builder (t_check t) with
    | Raise e => (w, Raise e)
    | Ok novel_corona_api_v2 =>
        match dumps novel_corona_api_v2 with
        | Raise e => (w, Raise e)
        | Ok pickled =>
            ({| store := redis_setex (t_use t) (store w) "api_2_model" 3600
                                     pickled;
                builds := builds w |},
             Ok (func novel_corona_api_v2))
        end
    end
  else
    match redis_get (t_use t) (store w) "api_2_model" with
    | Some pickled =>
        match loads pickled with
        | Ok novel_corona_api_v2 => (w, Ok (func novel_corona_api_v2))
        | Raise e => (w, Raise e)
        end
    | None =>
        (w, Raise (TypeError "a bytes-like object is required, not 'NoneType'"))
    end.

(** Serialized calls, one after the other. *)
Fixpoint serve {M R : Type}
    (builder : Z -> result M) (dumps : M -> result bytes)
    (loads : bytes -> result M) (func : M -> R)
    (ts : list call_times) (w : world) : world * list (result R) :=
  match ts with
  | [] => (w, [])
  | t :: ts' =>
      let (w1, r) := reload_model_api_v2 builder dumps loads func t w in
      let (w2, rs) := serve builder dumps loads func ts' w1 in
      (w2, r :: rs)
  end.

(** *** [lookup_country] *)

(** [pycountry_lookup c] is [pycountry.countries.lookup(c).name], or the
    LookupError it raises. *)
Definition lookup_country (pycountry_lookup : string -> result string)
    (country : string) : result string :=
  country_name ← pycountry_lookup country;
  if str_in "," country_name then first (split "," country_name)
  else if str_in " " country_name then last_item (split " " country_name)
  else Ok country_name.

(** *** API v2 *)

(** The six routes [/v2/current] ... [/v2/active] share one body. *)
Definition facade_route (call : result value) : response :=
  match call with
  | Ok data => Return data
  | Raise e => HTTPException 400 (DetailExn e)
  end.

Definition get_current (api : NovelCoronaAPIv2) : response :=
  facade_route (v2_get_current api).
Definition get_total (api : NovelCoronaAPIv2) : response :=
  facade_route (v2_get_total api).
Definition get_confirmed (api : NovelCoronaAPIv2) : response :=
  facade_route (v2_get_confirmed api).
Definition get_deaths (api : NovelCoronaAPIv2) : response :=
  facade_route (v2_get_deaths api).
Definition get_recovered (api : NovelCoronaAPIv2) : response :=
  facade_route (v2_get_recovered api).
Definition get_active (api : NovelCoronaAPIv2) : response :=
  facade_route (v2_get_active api).

(** The routing table of these six routes: [@app.get('/v2/current')] ... *)
Inductive facade_path : Type :=
| v2_current | v2_total | v2_confirmed | v2_deaths | v2_recovered | v2_active.

Definition facade_call (p : facade_path) (api : NovelCoronaAPIv2)
  : result value :=
  match p with
  | v2_current => v2_get_current api
  | v2_total => v2_get_total api
  | v2_confirmed => v2_get_confirmed api
  | v2_deaths => v2_get_deaths api
  | v2_recovered => v2_get_recovered api
  | v2_active => v2_get_active api
  end.

Definition facade_handler (p : facade_path) : NovelCoronaAPIv2 -> response :=
  match p with
  | v2_current => get_current
  | v2_total => get_total
  | v2_confirmed => get_confirmed
  | v2_deaths => get_deaths
  | v2_recovered => get_recovered
  | v2_active => get_active
  end.

(** [country_name.lower() not in ['us', 'uk'] and len(country_name) in [2]] *)
Definition is_code (country_name : string) : bool :=
  negb (in_list (lower country_name) ["us"; "uk"])
  && existsb (Nat.eqb (String.length country_name)) [2%nat].

(** The [try] block of [get_country]. *)
Definition get_country_try (pycountry_lookup : string -> result string)
    (raw_data : value) (country_name : string) : result value :=
  data ←
    (if is_code country_name then
       country_name ← lookup_country pycountry_lookup country_name;
       records ← (d ← subscript raw_data "data"; iter d);
       filterM (fun i => loc ← location_lower i;
                         Ok (str_in (lower country_name) loc)) records
     else
       records ← (d ← subscript raw_data "data"; iter d);
       filterM (fun i => loc ← location_lower i;
                         Ok (String.eqb (lower country_name) loc)) records);
  record ← first data;
  setitem raw_data "data" record.

Definition get_country (pycountry_lookup : string -> result string)
    (api : NovelCoronaAPIv2) (country_name : string) : response :=
  match v2_get_current api with
  | Raise e => Uncaught e
  | Ok raw_data =>
      match get_country_try pycountry_lookup raw_data country_name with
      | Ok raw_data => Return raw_data
      | Raise _ => item_not_found
      end
  end.

Definition get_time_series (api : NovelCoronaAPIv2) (case : string)
  : response :=
  if negb (in_list (lower case) ["global"; "confirmed"; "deaths"; "recovered"])
  then item_not_found
  else match v2_get_time_series api (lower case) with
       | Ok data => Return data
       | Raise e => Uncaught e
       end.

(** *** API v1 *)

(** [reload_model]: a new facade for every request. *)
Definition reload_model {R : Type} (builder : result NovelCoronaAPI)
    (func : NovelCoronaAPI -> R) : result R :=
  novel_corona_api ← builder;
  Ok (func novel_corona_api).

(** The [try] block of [country]. *)
Definition country_try (pycountry_lookup : string -> result string)
    (raw_data : value) (country_name : string) : result value :=
  data ←
    (if is_code country_name then
       country_name ← lookup_country pycountry_lookup country_name;
       kvs ← items raw_data;
       Ok (filter (fun kv => str_in (lower country_name) (lower (fst kv))) kvs)
     else
       kvs ← items raw_data;
       Ok (filter (fun kv => String.eqb (lower country_name) (lower (fst kv)))
                  kvs));
  dt ← subscript raw_data "dt";
  let data := dict_set data "dt" dt in
  ts ← subscript raw_data "ts";
  let data := dict_set data "ts" ts in
  Ok (VDict data).

Definition country (pycountry_lookup : string -> result string)
    (api : NovelCoronaAPI) (country_name : string) : response :=
  match v1_get_current_status api false with
  | Raise e => Uncaught e
  | Ok raw_data =>
      match country_try pycountry_lookup raw_data country_name with
      | Ok data => Return data
      | Raise _ => item_not_found
      end
  end.

Definition timeseries (api : NovelCoronaAPI) (case : string) : response :=
  match v1_get_time_series api with
  | Raise e => Uncaught e
  | Ok raw_data =>
      let case := lower case in
      if in_list case ["confirmed"; "deaths"; "recovered"] then
        match
          (series ← subscript raw_data case;
           let data := [(case, series)] in
           dt ← subscript raw_data "dt";
           let data := dict_set data "dt" dt in
           ts ← subscript raw_data "ts";
           let data := dict_set data "ts" ts in
           Ok (VDict data))
        with
        | Ok data => Return data
        | Raise e => Uncaught e
        end
      else item_not_found
  end.

End main.

(** ** The post-processing of a country name, as the specification words it *)

Module spec.

Fixpoint has_char (c : ascii) (s : string) : bool :=
  match s with
  | EmptyString => false
  | String c' s' => Ascii.eqb c' c || has_char c s'
  end.

(** The segment before the first [sep]. *)
Fixpoint segment_before_first (sep : ascii) (s : string) : string :=
  match s with
  | EmptyString => EmptyString
  | String c s' =>
      if Ascii.eqb c sep then EmptyString
      else String c (segment_before_first sep s')
  end.

(** The segment after the last [sep]. *)
Fixpoint segment_after_last (sep : ascii) (s : string) : string :=
  match s with
  | EmptyString => EmptyString
  | String c s' =>
      if has_char sep s' then segment_after_last sep s'
      else if Ascii.eqb c sep then s' else String c s'
  end.

Definition resolve_name (name : string) : string :=
  if has_char "," name then segment_before_first "," name
  else if has_char " " name then segment_after_last " " name
  else name.

(** Whether a location answers a country query: substring matching for a
    two-letter code outside {us, uk}, case-insensitive equality otherwise. *)
Definition location_matches (pycountry_lookup : string -> Py.result string)
    (country_name loc : string) : bool :=
  if main.is_code country_name then
    match main.lookup_country pycountry_lookup country_name with
    | Py.Ok name => Py.str_in (Py.lower name) (Py.lower loc)
    | Py.Raise _ => false
    end
  else String.eqb (Py.lower country_name) (Py.lower loc).

(** A record that carries a [location] field. *)
Definition located (r : Py.value) : Prop :=
  exists rec loc, r = Py.VDict rec /\ Py.dict_get rec "location" = Some loc.

(** A response body whose [data] field is an array of such records. *)
Definition data_is_array_of_located (body : Py.value) : Prop :=
  exists d recs,
    body = Py.VDict d /\ Py.dict_get d "data" = Some (Py.VList recs) /\
    Forall located recs.

(** A raw cell that is missing, empty or a non-negative number that fits
    64 bits. *)
Definition raw_nonneg (c : get_data.cell) : Prop :=
  match c with
  | get_data.NaN => True
  | get_data.CInt n => 0 <= n < 2 ^ 63
  | get_data.CFloat q => (0 <= q)%Q /\ get_data.truncate q < 2 ^ 63
  | get_data.CStr EmptyString => True
  | _ => False
  end.

(** The integer a raw cell stands for: 0 for a missing or empty cell; the
    number itself for an integer that fits 64 bits; its truncation toward
    zero for a float whose integer part fits; Python's reading of it for a
    text.  Nothing is said of a number that does not fit. *)
Definition normalized_value (int_of_str : string -> Py.result Z)
    (c : get_data.cell) (z : Z) : Prop :=
  match c with
  | get_data.NaN => z = 0
  | get_data.CInt n => - 2 ^ 63 <= n < 2 ^ 63 -> z = n
  | get_data.CFloat q =>
      - 2 ^ 63 <= get_data.truncate q < 2 ^ 63 -> z = get_data.truncate q
  | get_data.CInf => False
  | get_data.CStr EmptyString => z = 0
  | get_data.CStr s => int_of_str s = Py.Ok z
  end.

(** Every cell of the four numeric columns is a non-negative integer. *)
Definition numeric_columns_nonneg (df : get_data.DataFrame) : Prop :=
  forall name, In name get_data.concerned_columns ->
    exists col,
      Py.dict_get (get_data.columns df) name = Some col /\
      Forall (fun c => exists z, c = get_data.CInt z /\ 0 <= z) col.

(** The initially empty store, the builder never invoked. *)
Definition empty_world : main.world :=
  {| main.store := ∅; main.builds := [] |}.

(** The store holding one pickled model under the key of the wrapper. *)
Definition cached (pickled : main.bytes) (expires : Z) : gmap string main.entry :=
  <["api_2_model" := {| main.ent_value := pickled;
                        main.ent_expires := expires |}]> ∅.

(** [d0] is the first date, walking backward from [cur], whose report
    exists. *)
Definition first_existing (e : get_data.env) (cur d0 : Z) : Prop :=
  1 <= d0 <= cur /\ get_data.status_code e d0 <> 404%nat /\
  forall d, d0 < d <= cur -> get_data.status_code e d = 404%nat.

(** A lookback of [lookback] days: when no report exists from the reference
    date back to [lookback] days before it, the probe fails with
    [UpstreamNotFound]. *)
Definition fails_beyond_lookback (lookback : Z) (e : get_data.env) : Prop :=
  (forall d, get_data.utcnow e 0 - lookback <= d <= get_data.utcnow e 0 ->
             get_data.status_code e d = 404%nat) ->
  exists fuel exn,
    get_data.latest_report_date fuel e = Some (Py.Raise exn) /\
    Py.exn_class exn = "UpstreamNotFound".

(** Whether a record of the v2 current data answers a country query. *)
Definition record_matches (pycountry_lookup : string -> Py.result string)
    (country_name : string) (r : Py.value) : bool :=
  match r with
  | Py.VDict rec =>
      match Py.dict_get rec "location" with
      | Some (Py.VStr loc) => location_matches pycountry_lookup country_name loc
      | _ => false
      end
  | _ => false
  end.

(** A record whose [location] is a string. *)
Definition well_formed_record (r : Py.value) : Prop :=
  exists rec loc,
    r = Py.VDict rec /\ Py.dict_get rec "location" = Some (Py.VStr loc).

(** A cell the cast accepts: any cell but an infinite float and a text
    that Python's [int] does not read as a 64-bit integer. *)
Definition castable (int_of_str : string -> Py.result Z) (c : get_data.cell)
  : Prop :=
  match c with
  | get_data.CInf => False
  | get_data.CStr EmptyString => True
  | get_data.CStr s =>
      exists z, - 2 ^ 63 <= z < 2 ^ 63 /\ int_of_str s = Py.Ok z
  | _ => True
  end.

End spec.

(** ** Concrete data used by the examples *)

Module examples.
Import Py get_data main.

(** A fragment of the pycountry data. *)
Definition pycountry_lookup (c : string) : result string :=
  let c := lower c in
  if String.eqb c "th" then Ok "Thailand"
  else if String.eqb c "kr" then Ok "Korea, Republic of"
  else if String.eqb c "gb" then Ok "United Kingdom"
  else if String.eqb c "za" then Ok "South Africa"
  else Raise (Exn "LookupError" "Could not find a record").

Definition counts (confirmed deaths recovered active : Z) : list (string * value) :=
  [("confirmed", VInt confirmed); ("deaths", VInt deaths);
   ("recovered", VInt recovered); ("active", VInt active)].

(** A v1 facade over two locations. *)
Definition current_status : value :=
  VDict [("Thailand", VDict (counts 322 1 42 279));
         ("South_Korea", VDict (counts 8652 94 1540 7018));
         ("dt", VStr "3/20/20"); ("ts", VInt 1584662400)].

Definition time_series : value :=
  VDict [("confirmed", VDict [("Thailand", VInt 322)]);
         ("deaths", VDict [("Thailand", VInt 1)]);
         ("recovered", VDict [("Thailand", VInt 42)]);
         ("dt", VStr "3/20/20"); ("ts", VInt 1584662400)].

Definition api_v1 : NovelCoronaAPI :=
  {| v1_get_current_status := fun _ => Ok current_status;
     v1_get_time_series := Ok time_series |}.

(** A v2 facade over the same two locations. *)
Definition thailand : list (string * value) :=
  ("location", VStr "Thailand") :: counts 322 1 42 279.
Definition south_korea : list (string * value) :=
  ("location", VStr "South Korea") :: counts 8652 94 1540 7018.

Definition current : value :=
  VDict [("data", VList [VDict thailand; VDict south_korea]);
         ("dt", VStr "3/20/20"); ("ts", VInt 1584662400)].

Definition api_v2 : NovelCoronaAPIv2 :=
  {| v2_get_current := Ok current;
     v2_get_total := Ok (VDict [("data", VDict (counts 8974 95 1582 7297))]);
     v2_get_confirmed := Ok (VDict [("data", VInt 8974)]);
     v2_get_deaths := Ok (VDict [("data", VInt 95)]);
     v2_get_recovered := Ok (VDict [("data", VInt 1582)]);
     v2_get_active := Ok (VDict [("data", VInt 7297)]);
     v2_get_time_series := fun case => Ok (VDict [(case, VDict [])]) |}.

(** Current data in which the second record has no location. *)
Definition current_malformed : value :=
  VDict [("data", VList [VDict thailand; VDict (counts 8652 94 1540 7018)]);
         ("dt", VStr "3/20/20"); ("ts", VInt 1584662400)].

Definition api_v2_malformed : NovelCoronaAPIv2 :=
  {| v2_get_current := Ok current_malformed;
     v2_get_total := v2_get_total api_v2;
     v2_get_confirmed := v2_get_confirmed api_v2;
     v2_get_deaths := v2_get_deaths api_v2;
     v2_get_recovered := v2_get_recovered api_v2;
     v2_get_active := v2_get_active api_v2;
     v2_get_time_series := v2_get_time_series api_v2 |}.

(** A v1 facade whose time series lacks the recovered series. *)
Definition api_v1_no_recovered : NovelCoronaAPI :=
  {| v1_get_current_status := fun _ => Ok current_status;
     v1_get_time_series :=
       Ok (VDict [("confirmed", VDict [("Thailand", VInt 322)]);
                  ("deaths", VDict [("Thailand", VInt 1)]);
                  ("dt", VStr "3/20/20"); ("ts", VInt 1584662400)]) |}.

(** A v2 facade whose every method raises. *)
Definition boom : pyexn := Exn "ValueError" "boom".

Definition api_v2_failing : NovelCoronaAPIv2 :=
  {| v2_get_current := Raise boom;
     v2_get_total := Raise boom;
     v2_get_confirmed := Raise boom;
     v2_get_deaths := Raise boom;
     v2_get_recovered := Raise boom;
     v2_get_active := Raise boom;
     v2_get_time_series := fun _ => Raise boom |}.

(** 2020-03-20 as an ordinal. *)
Definition today : Z := 737504.

Definition no_csv : Z -> result DataFrame :=
  fun _ => Raise (Exn "HTTPError" "HTTP Error 404: Not Found").

(** A daily report with a missing cell, an empty one, a float and a
    negative count. *)
Definition report : DataFrame :=
  {| index := 2;
     columns := [("Country_Region", [CStr "Thailand"; CStr "Spain"]);
                 ("Last_Update", [CStr "2020-03-19"; CStr "2020-03-19"]);
                 ("Confirmed", [CInt 322; CFloat (39881 # 2)]);
                 ("Deaths", [NaN; CInt 1002]);
                 ("Recovered", [CStr ""; CInt 1588]);
                 ("Active", [CInt 279; CInt (-5)])] |}.

(** Python's [int] on plain decimal literals of at most one digit, enough
    for the examples. *)
Definition int_of_str (s : string) : result Z :=
  match s with
  | String c EmptyString =>
      let n := nat_of_ascii c in
      if (Nat.leb 48 n && Nat.leb n 57)%bool then Ok (Z.of_nat (n - 48))
      else Raise (ValueError "invalid literal for int() with base 10")
  | _ => Raise (ValueError "invalid literal for int() with base 10")
  end.

(** Today's report is not published yet, yesterday's is. *)
Definition env_yesterday : env :=
  {| utcnow := fun _ => today;
     status_code := fun d => if d =? today then 404%nat else 200%nat;
     read_csv := fun d => if d =? today - 1 then Ok report else no_csv d |}.

(** Only the report of forty days ago exists. *)
Definition env_old : env :=
  {| utcnow := fun _ => today;
     status_code := fun d => if d =? today - 40 then 200%nat else 404%nat;
     read_csv := fun d => if d =? today - 40 then Ok report else no_csv d |}.

(** No report exists at all; the reference date is 0001-01-03. *)
Definition env_none : env :=
  {| utcnow := fun _ => 3;
     status_code := fun _ => 404%nat;
     read_csv := no_csv |}.

(** A lookup table in which the code US occurs twice. *)
Definition lookup_rows : list (lookup_row string string) :=
  [LookupRow "US" "United States"; LookupRow "TH" "Thailand";
   LookupRow "US" "US"].

(** A cache of integers: the builder returns the time it ran at. *)
Definition builder (t : Z) : result Z := Ok t.
Definition dumps (m : Z) : result bytes :=
  Ok [Byte.x80; if m =? 0 then Byte.x00 else Byte.x01].
Definition loads (b : bytes) : result Z :=
  match b with
  | [Byte.x80; Byte.x00] => Ok 0
  | [Byte.x80; _] => Ok 1
  | _ => Raise (Exn "UnpicklingError" "invalid load key")
  end.

(** The categories of the time series, and two small tables. *)
Definition CATEGORIES : list string := ["confirmed"; "deaths"; "recovered"].

Definition us_table : DataFrame :=
  {| index := 2;
     columns := [("Province_State", [CStr "Alabama"; CStr "Alaska"]);
                 ("Lat", [CFloat (3253 # 100); CFloat (61 # 1)]);
                 ("Long_", [CFloat (- 8664 # 100); CFloat (- 152 # 1)]);
                 ("3/20/20", [CInt 83; NaN])] |}.

Definition read_us (category : string) : result DataFrame :=
  if in_list category CATEGORIES then Ok us_table
  else Raise (Exn "HTTPError" "HTTP Error 404: Not Found").

(** NumPy's conversion to float on the cells of the examples. *)
Definition to_float (c : cell) : result cell :=
  match c with
  | CInt z => Ok (CFloat (inject_Z z))
  | CStr _ => Raise (ValueError "could not convert string to float")
  | _ => Ok c
  end.

End examples.

(** * Properties *)

(** ** Strings *)

Section strings.
Import Py spec.

Lemma str_in_char (c : ascii) (s : string) :
  str_in (String c EmptyString) s = has_char c s.
Proof.
  induction s as [|c' s' IH]; simpl; [reflexivity|].
  destruct (ascii_dec c c') as [->|Hne].
  - destruct s'; simpl; rewrite Ascii.eqb_refl; reflexivity.
  - rewrite IH. destruct (Ascii.eqb_spec c' c); [congruence|reflexivity].
Qed.

Lemma split_no_sep (sep : ascii) (s : string) :
  has_char sep s = false -> split sep s = [s].
Proof.
  induction s as [|c s' IH]; simpl; [reflexivity|].
  intros [Hc Hs]%orb_false_iff. rewrite Hc, (IH Hs). reflexivity.
Qed.

Lemma split_has_sep (sep : ascii) (s : string) :
  has_char sep s = true ->
  exists seg seg' segs, split sep s = seg :: seg' :: segs.
Proof.
  induction s as [|c s' IH]; simpl; [discriminate|].
  destruct (Ascii.eqb c sep); simpl.
  - intros _. destruct (has_char sep s') eqn:Hs.
    + destruct (IH eq_refl) as (seg & seg' & segs & ->). eauto.
    + rewrite (split_no_sep _ _ Hs). eauto.
  - intros Hs. destruct (IH Hs) as (seg & seg' & segs & ->). eauto.
Qed.

Lemma segment_after_last_no_sep (sep : ascii) (s : string) :
  has_char sep s = false -> segment_after_last sep s = s.
Proof.
  destruct s as [|c s']; simpl; [reflexivity|].
  intros [Hc Hs]%orb_false_iff. rewrite Hc, Hs. reflexivity.
Qed.

Lemma split_head (sep : ascii) (s : string) :
  exists segs, split sep s = segment_before_first sep s :: segs.
Proof.
  induction s as [|c s' [segs IH]]; simpl; [eauto|].
  destruct (Ascii.eqb c sep); [eauto|]. rewrite IH. eauto.
Qed.

Lemma first_split (sep : ascii) (s : string) :
  first (split sep s) = Ok (segment_before_first sep s).
Proof. destruct (split_head sep s) as [segs ->]. reflexivity. Qed.

Lemma last_split (sep : ascii) (s : string) :
  last_item (split sep s) = Ok (segment_after_last sep s).
Proof.
  induction s as [|c s' IH]; simpl; [reflexivity|].
  destruct (has_char sep s') eqn:Hs.
  - destruct (split_has_sep _ _ Hs) as (seg & seg' & segs & Heq).
    rewrite Heq in *. destruct (Ascii.eqb c sep); exact IH.
  - rewrite (split_no_sep _ _ Hs).
    destruct (Ascii.eqb c sep); reflexivity.
Qed.

(** The two segments are what their names say. *)
Lemma segment_before_first_app (sep : ascii) (pre post : string) :
  has_char sep pre = false ->
  segment_before_first sep (pre ++ String sep post) = pre.
Proof.
  induction pre as [|c pre IH]; simpl.
  - rewrite Ascii.eqb_refl. reflexivity.
  - intros [Hc Hs]%orb_false_iff. rewrite Hc, (IH Hs). reflexivity.
Qed.

Lemma has_char_app (c : ascii) (s1 s2 : string) :
  has_char c (s1 ++ s2) = has_char c s1 || has_char c s2.
Proof.
  induction s1 as [|c1 s1 IH]; simpl; [reflexivity|].
  rewrite IH, orb_assoc. reflexivity.
Qed.

Lemma segment_after_last_app (sep : ascii) (pre post : string) :
  has_char sep post = false ->
  segment_after_last sep (pre ++ String sep post) = post.
Proof.
  intros Hpost. induction pre as [|c pre IH]; simpl.
  - rewrite Hpost, Ascii.eqb_refl. reflexivity.
  - rewrite has_char_app. simpl. rewrite Ascii.eqb_refl, orb_true_r. exact IH.
Qed.

Lemma lookup_country_resolve_name (pyc : string -> result string)
    (code name : string) :
  pyc code = Ok name ->
  main.lookup_country pyc code = Ok (resolve_name name).
Proof.
  intros Hpyc. unfold main.lookup_country, resolve_name.
  rewrite Hpyc. simpl. rewrite !str_in_char.
  destruct (has_char "," name); [apply first_split|].
  destruct (has_char " " name); [apply last_split|reflexivity].
Qed.

End strings.

(** ** The country resolver *)

Section resolver.
Import Py spec main.

(** C8. For a code of exactly two characters that, lowercased, is not in
    {us, uk}, the handlers take the code path, and [lookup_country] returns
    the looked-up name post-processed: the segment before the first comma if
    the name has a comma; otherwise the segment after the last space if it
    has a space; otherwise the name unchanged. *)
Theorem lookup_country_postprocess (pyc : string -> result string)
    (code name : string) :
  String.length code = 2%nat ->
  in_list (lower code) ["us"; "uk"] = false ->
  pyc code = Ok name ->
  is_code code = true /\
  exists r,
    lookup_country pyc code = Ok r /\
    (forall pre post,
        name = pre ++ String "," post -> has_char "," pre = false ->
        r = pre) /\
    (has_char "," name = false ->
     forall pre post,
        name = pre ++ String " " post -> has_char " " post = false ->
        r = post) /\
    (has_char "," name = false -> has_char " " name = false -> r = name).
Proof.
  intros Hlen Hex Hpyc. split.
  - unfold is_code. rewrite Hex, Hlen. reflexivity.
  - exists (resolve_name name). split.
    + apply lookup_country_resolve_name, Hpyc.
    + unfold resolve_name. repeat split.
      * intros pre post -> Hpre.
        rewrite has_char_app. simpl. rewrite orb_true_r.
        apply segment_before_first_app, Hpre.
      * intros Hcomma pre post -> Hpost. rewrite Hcomma.
        rewrite has_char_app. simpl. rewrite orb_true_r.
        apply segment_after_last_app, Hpost.
      * intros -> ->. reflexivity.
Qed.

Lemma lookup_country_postprocess_witness :
  is_code "kr" = true /\
  exists r,
    lookup_country examples.pycountry_lookup "kr" = Ok r /\
    (forall pre post,
        "Korea, Republic of" = pre ++ String "," post ->
        has_char "," pre = false -> r = pre) /\
    (has_char "," "Korea, Republic of" = false ->
     forall pre post,
        "Korea, Republic of" = pre ++ String " " post ->
        has_char " " post = false -> r = post) /\
    (has_char "," "Korea, Republic of" = false ->
     has_char " " "Korea, Republic of" = false -> r = "Korea, Republic of").
Proof.
  apply (lookup_country_postprocess examples.pycountry_lookup "kr"
           "Korea, Republic of"); reflexivity.
Defined.

End resolver.

(** ** Route handlers *)

Section handlers.
Import Py spec main.

Lemma in_list_cases (x : string) (xs : list string) :
  in_list x xs = true -> In x xs.
Proof.
  unfold in_list. rewrite existsb_exists.
  intros (y & Hy & Heq). apply String.eqb_eq in Heq. subst. exact Hy.
Qed.

(** C7. Once the v1 facade has returned its time series,
    [/timeseries/{case}] answers 404 "Item not found" unless the lowercased
    case is confirmed, deaths or recovered (so [/timeseries/active] is a
    404), and returns data only for those; [/v2/timeseries/{case}] answers
    404 "Item not found" unless the lowercased case is global, confirmed,
    deaths or recovered, and returns data, the facade's, only for those. *)
Theorem timeseries_case_gate (api : NovelCoronaAPI) (api2 : NovelCoronaAPIv2)
    (case : string) (raw_data : value) :
  v1_get_time_series api = Ok raw_data ->
  (in_list (lower case) ["confirmed"; "deaths"; "recovered"] = false ->
   timeseries api case = item_not_found) /\
  (forall body, timeseries api case = Return body ->
     in_list (lower case) ["confirmed"; "deaths"; "recovered"] = true) /\
  (in_list (lower case) ["confirmed"; "deaths"; "recovered"] = true ->
   forall series dt ts,
     subscript raw_data (lower case) = Ok series ->
     subscript raw_data "dt" = Ok dt -> subscript raw_data "ts" = Ok ts ->
     timeseries api case =
       Return (VDict [(lower case, series); ("dt", dt); ("ts", ts)])) /\
  timeseries api "active" = item_not_found /\
  (in_list (lower case) ["global"; "confirmed"; "deaths"; "recovered"] = false ->
   get_time_series api2 case = item_not_found) /\
  (forall body, get_time_series api2 case = Return body ->
     in_list (lower case) ["global"; "confirmed"; "deaths"; "recovered"] = true
     /\ v2_get_time_series api2 (lower case) = Ok body) /\
  (in_list (lower case) ["global"; "confirmed"; "deaths"; "recovered"] = true ->
   forall body, v2_get_time_series api2 (lower case) = Ok body ->
     get_time_series api2 case = Return body).
Proof.
  intros Hraw. unfold timeseries, get_time_series. rewrite Hraw.
  repeat split.
  - intros ->. reflexivity.
  - destruct (in_list (lower case) _); [reflexivity|discriminate].
  - intros Hin series dt ts Hs Hdt Hts. rewrite Hin, Hs. simpl.
    rewrite Hdt. simpl. rewrite Hts. simpl.
    apply in_list_cases in Hin. simpl in Hin.
    destruct Hin as [<-|[<-|[<-|[]]]]; reflexivity.
  - intros ->. reflexivity.
  - destruct (in_list (lower case) _); [reflexivity|discriminate].
  - destruct (in_list (lower case) _); simpl in *; [|discriminate].
    destruct (v2_get_time_series api2 (lower case)); congruence.
  - intros -> body ->. reflexivity.
Qed.

Lemma timeseries_case_gate_witness :
  timeseries examples.api_v1 "active" = item_not_found /\
  get_time_series examples.api_v2 "bogus" = item_not_found.
Proof.
  pose proof (timeseries_case_gate examples.api_v1 examples.api_v2 "bogus"
                examples.time_series eq_refl) as (_ & _ & _ & H1 & H2 & _).
  split; [exact H1 | apply H2; reflexivity].
Defined.

(** What each of the six facade routes of v2 raises when the facade call
    raises: an [HTTPException] of status 400 whose detail is the exception
    object. *)
Lemma facade_exception_is_http_400 (p : facade_path)
    (api : NovelCoronaAPIv2) (e : pyexn) :
  facade_call p api = Raise e ->
  facade_handler p api = HTTPException 400 (DetailExn e).
Proof.
  destruct p; simpl; intros H;
    unfold get_current, get_total, get_confirmed, get_deaths, get_recovered,
           get_active, facade_route; rewrite H; reflexivity.
Qed.

(** C9 on the code: the facade raises [ValueError("boom")] on each of the
    six routes, and the [HTTPException] the handler raises carries, as its
    detail, the exception object and not the text "boom". *)
Theorem facade_exception_detail_is_object :
  forall p,
    facade_call p examples.api_v2_failing = Raise examples.boom /\
    facade_handler p examples.api_v2_failing
      = HTTPException 400 (DetailExn examples.boom) /\
    facade_handler p examples.api_v2_failing
      <> HTTPException 400 (DetailStr (exn_message examples.boom)).
Proof.
  intros p. destruct p; (split; [reflexivity|]; split;
                         [reflexivity|discriminate]).
Qed.

End handlers.

(** ** Country queries *)

Section country_queries.
Import Py spec main.

Lemma filterM_first {A} (p : A -> result bool) (xs : list A) (x : A)
    (rest : list A) :
  filterM p xs = Ok (x :: rest) ->
  exists before after,
    xs = (before ++ x :: after)%list /\ p x = Ok true /\
    Forall (fun y => p y = Ok false) before.
Proof.
  induction xs as [|y ys IH]; simpl; [discriminate|].
  destruct (p y) as [[|]|] eqn:Hy; simpl; [| |discriminate].
  - destruct (filterM p ys); simpl; [|discriminate].
    intros [= -> ->]. exists [], ys. repeat split; auto.
  - destruct (filterM p ys) as [l|]; simpl; [|discriminate].
    intros [= ->]. destruct (IH eq_refl) as (before & after & -> & Hx & Hb).
    exists (y :: before), after. repeat split; auto.
Qed.

Lemma location_lower_ok (i : value) (l : string) :
  location_lower i = Ok l ->
  exists rec loc,
    i = VDict rec /\ dict_get rec "location" = Some (VStr loc) /\
    l = lower loc.
Proof.
  destruct i as [| | |?|rec]; simpl; try discriminate.
  destruct (dict_get rec "location") as [[| |loc| |]|] eqn:Hloc;
    try discriminate.
  intros [= <-]. exists rec, loc. auto.
Qed.

Lemma test_location_ok (test : string -> bool) (i : value) (b : bool) :
  (loc ← location_lower i; Ok (test loc)) = Ok b ->
  exists rec loc,
    i = VDict rec /\ dict_get rec "location" = Some (VStr loc) /\
    test (lower loc) = b.
Proof.
  destruct (location_lower i) as [l|] eqn:Hl; simpl; [|discriminate].
  intros [= <-]. apply location_lower_ok in Hl as (rec & loc & -> & ? & ->).
  eauto.
Qed.

Lemma chars_are_strings (s : string) (x : value) :
  In x (chars s) -> exists c, x = VStr c.
Proof.
  induction s as [|c s IH]; simpl; [tauto|]. intros [<-|H]; eauto.
Qed.

(** The records a comprehension of [get_country] iterates over are a list as
    soon as one of them passes the test, and that one is the first match. *)
Lemma records_first_match (test : string -> bool) (dv : value)
    (records : list value) (x : value) (rest : list value) :
  iter dv = Ok records ->
  filterM (fun i => loc ← location_lower i; Ok (test loc)) records
    = Ok (x :: rest) ->
  exists before rec after loc,
    dv = VList (before ++ VDict rec :: after)%list /\ x = VDict rec /\
    dict_get rec "location" = Some (VStr loc) /\ test (lower loc) = true /\
    Forall (fun y => exists rd l,
                y = VDict rd /\ dict_get rd "location" = Some (VStr l) /\
                test (lower l) = false) before.
Proof.
  intros Hiter Hf.
  apply filterM_first in Hf as (before & after & -> & Hx & Hb).
  apply test_location_ok in Hx as (rec & loc & -> & Hloc & Ht).
  exists before, rec, after, loc.
  assert (Hin : In (VDict rec) (before ++ VDict rec :: after)%list)
    by (apply in_elt).
  repeat split; auto.
  - destruct dv as [| |s|l|d]; simpl in Hiter; try discriminate;
      injection Hiter as Hiter.
    + rewrite <- Hiter in Hin. apply chars_are_strings in Hin as [c Hc].
      discriminate.
    + congruence.
    + rewrite <- Hiter in Hin. apply in_map_iff in Hin as (kv & Hkv & _).
      discriminate.
  - eapply Forall_impl; [exact Hb|]. simpl. intros y Hy.
    apply test_location_ok in Hy as (rd & l & ? & ? & ?). eauto.
Qed.

(** Both branches of [get_country] read [raw_data['data']], filter it, take
    the first element and store it back. *)
Ltac first_match raw_data :=
  let d := fresh "d" in
  let dv := fresh "dv" in
  let records := fresh "records" in
  let Hd := fresh "Hd" in
  let Hiter := fresh "Hiter" in
  let Hf := fresh "Hf" in
  destruct raw_data as [| | | |d]; simpl; try discriminate;
  unfold Py.getitem;
  destruct (Py.dict_get d "data") as [dv|] eqn:Hd; simpl; [|discriminate];
  destruct (main.iter dv) as [records|] eqn:Hiter; simpl; [|discriminate];
  destruct (main.filterM _ records) as [[|? ?]|] eqn:Hf; simpl;
    try discriminate;
  intros [= <-];
  destruct (records_first_match _ _ _ _ _ Hiter Hf)
    as (before & rec & after & loc & -> & -> & ? & ? & ?);
  exists d, before, rec, after, loc; repeat split; auto.

(** What a successful [try] block of [get_country] has done. *)
Lemma get_country_try_ok (pyc : string -> result string) (raw_data : value)
    (country_name : string) (r : value) :
  get_country_try pyc raw_data country_name = Ok r ->
  exists d before rec after loc,
    raw_data = VDict d /\
    dict_get d "data" = Some (VList (before ++ VDict rec :: after)%list) /\
    dict_get rec "location" = Some (VStr loc) /\
    location_matches pyc country_name loc = true /\
    Forall (fun y => exists rd l,
                y = VDict rd /\ dict_get rd "location" = Some (VStr l) /\
                location_matches pyc country_name l = false) before /\
    r = VDict (dict_set d "data" (VDict rec)).
Proof.
  unfold get_country_try, location_matches.
  destruct (is_code country_name).
  - destruct (lookup_country pyc country_name) as [name|]; simpl;
      [|discriminate].
    first_match raw_data.
  - simpl. first_match raw_data.
Qed.

Lemma dict_get_set {V} (d : list (string * V)) (k : string) (v : V) :
  dict_get (dict_set d k v) k = Some v.
Proof.
  induction d as [|[k' v'] d IH]; simpl.
  - rewrite String.eqb_refl. reflexivity.
  - destruct (String.eqb k' k) eqn:Hk; simpl; rewrite Hk; auto.
Qed.

(** On the v2 route a query that no record answers is a 404: the handler
    either raises "Item not found" or returns the first matching record. *)
Lemma get_country_no_match (pyc : string -> result string)
    (api : NovelCoronaAPIv2) (country_name : string) (raw_data : value) :
  v2_get_current api = Ok raw_data ->
  (forall d records rec loc,
      raw_data = VDict d -> dict_get d "data" = Some (VList records) ->
      In (VDict rec) records -> dict_get rec "location" = Some (VStr loc) ->
      location_matches pyc country_name loc = false) ->
  get_country pyc api country_name = item_not_found.
Proof.
  intros Hraw Hnone. unfold get_country. rewrite Hraw.
  destruct (get_country_try pyc raw_data country_name) as [r|] eqn:Htry;
    [|reflexivity].
  apply get_country_try_ok in Htry
    as (d & before & rec & after & loc & -> & Hd & Hloc & Hm & _).
  rewrite (Hnone d _ rec loc eq_refl Hd (in_elt _ _ _) Hloc) in Hm.
  discriminate.
Qed.

(** On the v1 route a name query returns, whatever it matches, as soon as
    the current status carries [dt] and [ts]. *)
Lemma country_name_query_returns (pyc : string -> result string)
    (api : NovelCoronaAPI) (country_name : string) (d : dict) (dt ts : value) :
  v1_get_current_status api false = Ok (VDict d) ->
  dict_get d "dt" = Some dt -> dict_get d "ts" = Some ts ->
  is_code country_name = false ->
  country pyc api country_name
  = Return (VDict (dict_set
                     (dict_set
                        (filter (fun kv => String.eqb (lower country_name)
                                                      (lower (fst kv))) d)
                        "dt" dt)
                     "ts" ts)).
Proof.
  intros Hraw Hdt Hts Hcode. unfold country, country_try.
  rewrite Hraw, Hcode. simpl. unfold getitem. rewrite Hdt. simpl.
  rewrite Hts. reflexivity.
Qed.

(** C1 on the code: [/country/{x}] (v1) answers 200 with a body that holds
    only [dt] and [ts] when no location matches, for a name ("atlantis") and
    for a two-letter code ("za", looked up as "Africa"); the v2 route answers
    404 "Item not found" on the same queries. *)
Theorem country_without_match_returns_200 :
  country examples.pycountry_lookup examples.api_v1 "atlantis"
    = Return (VDict [("dt", VStr "3/20/20"); ("ts", VInt 1584662400)]) /\
  country examples.pycountry_lookup examples.api_v1 "za"
    = Return (VDict [("dt", VStr "3/20/20"); ("ts", VInt 1584662400)]) /\
  location_matches examples.pycountry_lookup "atlantis" "Thailand" = false /\
  location_matches examples.pycountry_lookup "atlantis" "South_Korea" = false /\
  location_matches examples.pycountry_lookup "za" "Thailand" = false /\
  location_matches examples.pycountry_lookup "za" "South_Korea" = false /\
  get_country examples.pycountry_lookup examples.api_v2 "atlantis"
    = item_not_found /\
  get_country examples.pycountry_lookup examples.api_v2 "za" = item_not_found.
Proof. repeat split; reflexivity. Qed.

(** C2, amended. When [/v2/country/{name}] returns, the body is the facade's
    current data with its [data] field replaced by one record, not an array:
    the first record, in source order, whose [location] answers the query;
    that record carries a [location] field. *)
Theorem get_country_returns_first_match (pyc : string -> result string)
    (api : NovelCoronaAPIv2) (country_name : string) (body : value) :
  get_country pyc api country_name = Return body ->
  exists d before rec after loc,
    v2_get_current api = Ok (VDict d) /\
    dict_get d "data" = Some (VList (before ++ VDict rec :: after)%list) /\
    dict_get rec "location" = Some (VStr loc) /\
    location_matches pyc country_name loc = true /\
    Forall (fun y => exists rd l,
                y = VDict rd /\ dict_get rd "location" = Some (VStr l) /\
                location_matches pyc country_name l = false) before /\
    body = VDict (dict_set d "data" (VDict rec)) /\
    subscript body "data" = Ok (VDict rec) /\
    ~ data_is_array_of_located body.
Proof.
  unfold get_country.
  destruct (v2_get_current api) as [raw_data|]; [|discriminate].
  destruct (get_country_try pyc raw_data country_name) as [r|] eqn:Htry;
    [|discriminate].
  intros [= <-].
  apply get_country_try_ok in Htry
    as (d & before & rec & after & loc & -> & Hd & Hloc & Hm & Hb & ->).
  exists d, before, rec, after, loc. repeat split; auto.
  - simpl. unfold getitem. rewrite dict_get_set. reflexivity.
  - intros (d' & recs & [= <-] & Hdata & _).
    rewrite dict_get_set in Hdata. discriminate.
Qed.

Lemma get_country_returns_first_match_witness :
  exists d before rec after loc,
    v2_get_current examples.api_v2 = Ok (VDict d) /\
    dict_get d "data" = Some (VList (before ++ VDict rec :: after)%list) /\
    dict_get rec "location" = Some (VStr loc) /\
    location_matches examples.pycountry_lookup "kr" loc = true /\
    Forall (fun y => exists rd l,
                y = VDict rd /\ dict_get rd "location" = Some (VStr l) /\
                location_matches examples.pycountry_lookup "kr" l = false)
           before /\
    VDict [("data", VDict examples.south_korea); ("dt", VStr "3/20/20");
           ("ts", VInt 1584662400)]
      = VDict (dict_set d "data" (VDict rec)) /\
    subscript (VDict [("data", VDict examples.south_korea);
                      ("dt", VStr "3/20/20"); ("ts", VInt 1584662400)])
              "data" = Ok (VDict rec) /\
    ~ data_is_array_of_located
        (VDict [("data", VDict examples.south_korea); ("dt", VStr "3/20/20");
                ("ts", VInt 1584662400)]).
Proof.
  apply (get_country_returns_first_match examples.pycountry_lookup
           examples.api_v2 "kr").
  reflexivity.
Defined.

(** C2 as stated fails: [/v2/country/Thailand] succeeds and the [data] field
    of its body is not an array. *)
Lemma get_country_data_not_array :
  exists body,
    get_country examples.pycountry_lookup examples.api_v2 "Thailand"
      = Return body /\
    ~ data_is_array_of_located body.
Proof.
  eexists. split; [reflexivity|].
  intros (d & recs & [= <-] & Hdata & _). discriminate.
Qed.

End country_queries.

(** ** The lookup table *)

Section lookup_table.
Import get_data.
Context `{Countable K} {V : Type}.

Lemma foldl_put_dom (data : list (lookup_row K V)) (acc : gmap K V) :
  dom (foldl (fun acc v => <[iso2 v := Country_Region v]> acc) acc data)
  = dom acc ∪ list_to_set (map iso2 data).
Proof.
  revert acc. induction data as [|v data IH]; intros acc; simpl.
  - rewrite (right_id_L ∅ (∪)). reflexivity.
  - rewrite IH, dom_insert_L.
    rewrite (comm_L (∪) {[iso2 v]} (dom acc)), (assoc_L (∪)). reflexivity.
Qed.

Lemma foldl_put_other (data : list (lookup_row K V)) (acc : gmap K V)
    (k : K) :
  (forall r, In r data -> iso2 r <> k) ->
  foldl (fun acc v => <[iso2 v := Country_Region v]> acc) acc data !! k
  = acc !! k.
Proof.
  revert acc. induction data as [|v data IH]; intros acc Hk; simpl.
  - reflexivity.
  - rewrite IH by (intros r Hr; apply Hk; right; exact Hr).
    apply lookup_insert_ne, Hk. left. reflexivity.
Qed.

(** C10. The mapping's keys are exactly the [iso2] values of the table, and
    a code is mapped to the [Country_Region] of the last row that carries
    it. *)
Theorem get_data_lookup_table_last_row_wins (data : list (lookup_row K V)) :
  dom (get_data_lookup_table data) = list_to_set (map iso2 data) /\
  forall before row after,
    data = (before ++ row :: after)%list ->
    (forall r, In r after -> iso2 r <> iso2 row) ->
    get_data_lookup_table data !! iso2 row = Some (Country_Region row).
Proof.
  unfold get_data_lookup_table. split.
  - rewrite foldl_put_dom, dom_empty_L. apply (left_id_L ∅ (∪)).
  - intros before row after -> Hlast.
    rewrite foldl_app. simpl.
    rewrite foldl_put_other by exact Hlast.
    apply lookup_insert_eq.
Qed.

End lookup_table.

Lemma get_data_lookup_table_last_row_wins_witness :
  get_data.get_data_lookup_table examples.lookup_rows !! "US" = Some "US".
Proof.
  apply (proj2 (get_data_lookup_table_last_row_wins examples.lookup_rows)
           [get_data.LookupRow "US" "United States";
            get_data.LookupRow "TH" "Thailand"]
           (get_data.LookupRow "US" "US") []).
  - reflexivity.
  - intros r [].
Defined.

(** ** The probe for the latest daily report *)

Section probe.
Import Py spec get_data.

Variable e : env.
Variable ref : Z.

(** The clock shows the reference date during the whole call. *)
Hypothesis steady : forall n, utcnow e n = ref.

Lemma first_existing_dec (n : nat) (cur : Z) :
  cur = Z.of_nat n ->
  (exists d0, first_existing e cur d0) \/
  (forall d, 1 <= d <= cur -> status_code e d = 404%nat).
Proof using Type.
  revert cur. induction n as [|n IH]; intros cur Hcur.
  - right. intros d Hd. lia.
  - destruct (Nat.eq_dec (status_code e cur) 404%nat) as [H404|Hok].
    + destruct (IH (cur - 1)) as [(d0 & Hr & Hd0 & Hnone)|Hnone]; [lia| |].
      * left. exists d0. repeat split; [lia|lia|exact Hd0|].
        intros d Hd. destruct (Z.eq_dec d cur) as [->|Hne]; [exact H404|].
        apply Hnone. lia.
      * right. intros d Hd.
        destruct (Z.eq_dec d cur) as [->|Hne]; [exact H404|].
        apply Hnone. lia.
    + left. exists cur. repeat split; [lia|lia|exact Hok|]. intros d Hd. lia.
Qed.

Lemma probe_found (d0 : Z) (fuel : nat) :
  forall (time_delta : nat) (cur : Z),
    cur = ref - Z.of_nat time_delta + 1 ->
    first_existing e cur d0 ->
    (Z.to_nat (cur - d0) < fuel)%nat ->
    probe fuel e time_delta cur = Some (Ok d0).
Proof using steady.
  induction fuel as [|fuel IH]; intros time_delta cur Hcur (Hr & Hd0 & Hnone)
    Hfuel; [lia|].
  simpl. destruct (Nat.eqb_spec (status_code e cur) 404) as [H404|Hok].
  - assert (d0 < cur) by (destruct (Z.eq_dec d0 cur); [congruence|lia]).
    unfold date_sub. rewrite steady.
    destruct (Z.ltb_spec (ref - Z.of_nat time_delta) 1); [lia|].
    apply IH; [lia| |lia].
    repeat split; [lia|lia|exact Hd0|]. intros d Hd. apply Hnone. lia.
  - destruct (Z.eq_dec d0 cur) as [->|Hne]; [reflexivity|].
    exfalso. apply Hok, Hnone. lia.
Qed.

Lemma probe_none (fuel : nat) :
  forall (time_delta : nat) (cur : Z),
    cur = ref - Z.of_nat time_delta + 1 -> 1 <= cur ->
    (forall d, 1 <= d <= cur -> status_code e d = 404%nat) ->
    cur <= Z.of_nat fuel ->
    probe fuel e time_delta cur
      = Some (Raise (OverflowError "date value out of range")).
Proof using steady.
  induction fuel as [|fuel IH]; intros time_delta cur Hcur Hpos Hnone Hfuel;
    [lia|].
  simpl. rewrite (Hnone cur) by lia. simpl.
  unfold date_sub. rewrite steady.
  destruct (Z.ltb_spec (ref - Z.of_nat time_delta) 1); [reflexivity|].
  apply IH; [lia|lia| |lia]. intros d Hd. apply Hnone. lia.
Qed.

End probe.

Section daily_reports.
Import Py spec get_data.

Lemma probe_fuel_mono (e : env) (fuel fuel' : nat) :
  forall (time_delta : nat) (cur : Z) (r : result Z),
    (fuel <= fuel')%nat ->
    probe fuel e time_delta cur = Some r ->
    probe fuel' e time_delta cur = Some r.
Proof.
  revert fuel'. induction fuel as [|fuel IH];
    intros fuel' time_delta cur r Hle; simpl; [discriminate|].
  destruct fuel' as [|fuel']; [lia|]. simpl.
  destruct (Nat.eqb (status_code e cur) 404); [|auto].
  destruct (date_sub (utcnow e time_delta) time_delta); [|auto].
  apply IH. lia.
Qed.

(** C4. When the clock shows the reference date during the call and a report
    exists at some date at or before it, the probe returns a date at or
    before the reference date whose report exists, every later date up to the
    reference date having answered 404; that date's report is the one read
    and its rendering is written to [Last_Update]. *)
Theorem latest_report_is_first_existing (strftime : Z -> string)
    (int_of_str : string -> result Z) (e : env) (ref : Z) :
  (forall n, utcnow e n = ref) ->
  (exists d, 1 <= d <= ref /\ status_code e d <> 404%nat) ->
  exists d0,
    1 <= d0 <= ref /\ status_code e d0 <> 404%nat /\
    (forall d, d0 < d <= ref -> status_code e d = 404%nat) /\
    forall fuel, (Z.to_nat (ref - d0) < fuel)%nat ->
      latest_report_date fuel e = Some (Ok d0) /\
      get_data_daily_reports strftime int_of_str fuel e
        = Some (df ← read_csv e d0; preprocess int_of_str df (strftime d0)).
Proof.
  intros Hsteady (d & Hd & Hok).
  assert (Href : ref = Z.of_nat (Z.to_nat ref)) by lia.
  destruct (first_existing_dec e (Z.to_nat ref) ref Href)
    as [(d0 & Hfirst)|Hnone].
  - exists d0. destruct Hfirst as (Hr & Hd0 & Hlater).
    repeat split; try lia; auto.
    + unfold latest_report_date. rewrite Hsteady.
      apply (probe_found e ref Hsteady); [lia| |lia].
      repeat split; try lia; auto.
    + unfold get_data_daily_reports, latest_report_date. rewrite Hsteady.
      rewrite (probe_found e ref Hsteady d0 fuel 1 ref); [reflexivity|lia| |lia].
      repeat split; try lia; auto.
  - exfalso. apply Hok, Hnone. lia.
Qed.

Lemma latest_report_is_first_existing_witness :
  exists d0,
    1 <= d0 <= examples.today /\
    status_code examples.env_yesterday d0 <> 404%nat /\
    (forall d, d0 < d <= examples.today ->
               status_code examples.env_yesterday d = 404%nat) /\
    forall fuel, (Z.to_nat (examples.today - d0) < fuel)%nat ->
      latest_report_date fuel examples.env_yesterday = Some (Ok d0) /\
      get_data_daily_reports (fun _ => "03-19-2020") examples.int_of_str fuel
                             examples.env_yesterday
        = Some (df ← read_csv examples.env_yesterday d0;
                preprocess examples.int_of_str df "03-19-2020").
Proof.
  apply (latest_report_is_first_existing (fun _ => "03-19-2020")
           examples.int_of_str examples.env_yesterday examples.today).
  - reflexivity.
  - exists (examples.today - 1). vm_compute. repeat split; discriminate.
Defined.

(** C5, amended. When the clock shows the reference date during the call,
    the probe terminates after at most as many requests as the reference
    date has days since 0001-01-01: it returns the first existing report
    walking backward, however far back that is, and it fails only when no
    report exists at any date down to 0001-01-01, with the OverflowError of
    the date subtraction.  No lookback is configured. *)
Theorem probe_terminates (e : env) (ref : Z) (fuel : nat) :
  (forall n, utcnow e n = ref) ->
  1 <= ref <= Z.of_nat fuel ->
  (exists d0,
      1 <= d0 <= ref /\ status_code e d0 <> 404%nat /\
      (forall d, d0 < d <= ref -> status_code e d = 404%nat) /\
      latest_report_date fuel e = Some (Ok d0)) \/
  ((forall d, 1 <= d <= ref -> status_code e d = 404%nat) /\
   latest_report_date fuel e
     = Some (Raise (OverflowError "date value out of range"))).
Proof.
  intros Hsteady Hfuel.
  assert (Href : ref = Z.of_nat (Z.to_nat ref)) by lia.
  unfold latest_report_date. rewrite Hsteady.
  destruct (first_existing_dec e (Z.to_nat ref) ref Href)
    as [(d0 & Hfirst)|Hnone].
  - left. exists d0. pose proof Hfirst as (Hr & Hd0 & Hlater).
    repeat split; try lia; auto.
    apply (probe_found e ref Hsteady); [lia|exact Hfirst|lia].
  - right. split; [exact Hnone|].
    apply (probe_none e ref Hsteady); [lia|lia|exact Hnone|lia].
Qed.

Lemma probe_terminates_witness :
  (exists d0,
      1 <= d0 <= 3 /\ status_code examples.env_none d0 <> 404%nat /\
      (forall d, d0 < d <= 3 -> status_code examples.env_none d = 404%nat) /\
      latest_report_date 3 examples.env_none = Some (Ok d0)) \/
  ((forall d, 1 <= d <= 3 -> status_code examples.env_none d = 404%nat) /\
   latest_report_date 3 examples.env_none
     = Some (Raise (OverflowError "date value out of range"))).
Proof.
  apply (probe_terminates examples.env_none 3 3).
  - reflexivity.
  - lia.
Defined.

(** C5 as stated fails.  Where no report exists at all the probe fails, for
    any lookback, with an OverflowError and never with UpstreamNotFound; and
    where the only report is forty days old the probe does not fail after a
    lookback of thirty days: it returns that report's date. *)
Lemma probe_has_no_lookback :
  ~ (exists lookback, fails_beyond_lookback lookback examples.env_none) /\
  ~ fails_beyond_lookback 30 examples.env_old /\
  latest_report_date 41 examples.env_old = Some (Ok (examples.today - 40)).
Proof.
  split; [|split].
  - intros (lookback & Hfails).
    destruct Hfails as (fuel & exn & Hrun & Hclass); [reflexivity|].
    destruct (le_lt_dec 3 fuel) as [Hle|Hlt].
    + assert (Hthree : latest_report_date 3 examples.env_none
                       = Some (Raise (OverflowError "date value out of range")))
        by reflexivity.
      apply (probe_fuel_mono _ 3 fuel) in Hthree; [|exact Hle].
      unfold latest_report_date in Hrun. rewrite Hthree in Hrun.
      injection Hrun as <-. discriminate.
    + destruct fuel as [|[|[|fuel]]]; try lia; discriminate.
  - intros Hfails.
    destruct Hfails as (fuel & exn & Hrun & _).
    + intros d Hd. simpl.
      destruct (Z.eqb_spec d (examples.today - 40)) as [->|]; [|reflexivity].
      change (examples.today - 30 <= examples.today - 40 <= examples.today)
        in Hd.
      lia.
    + assert (Hfound : latest_report_date 41 examples.env_old
                       = Some (Ok (examples.today - 40)))
        by (vm_compute; reflexivity).
      destruct (le_lt_dec fuel 41) as [Hle|Hlt].
      * apply (probe_fuel_mono _ fuel 41) in Hrun; [|exact Hle].
        unfold latest_report_date in Hfound. congruence.
      * apply (probe_fuel_mono _ 41 fuel) in Hfound; [|lia].
        unfold latest_report_date in Hrun. congruence.
  - vm_compute. reflexivity.
Qed.

End daily_reports.

(** ** The pre-processing of a daily report *)

Section dataframe.
Import Py spec get_data.

Lemma mapM_Ok {A B} (f : A -> result B) (l : list A) (k : list B) :
  mapM f l = Ok k <-> Forall2 (fun x y => f x = Ok y) l k.
Proof.
  revert k. induction l as [|x l IH]; intros k; simpl.
  - split.
    + intros [= <-]. constructor.
    + intros Hk. inversion Hk. reflexivity.
  - split.
    + destruct (f x) as [y|] eqn:Hx; simpl; [|discriminate].
      destruct (mapM f l) as [k'|]; simpl; [|discriminate].
      intros [= <-]. constructor; [exact Hx|]. apply IH. reflexivity.
    + intros Hk. inversion Hk as [|? y ? k' Hx Hl]; subst.
      rewrite Hx. simpl. apply IH in Hl. rewrite Hl. reflexivity.
Qed.

Lemma bind_Ok {A B} (r : result A) (k : A -> result B) (b : B) :
  r ≫= k = Ok b -> exists a, r = Ok a /\ k a = Ok b.
Proof. destruct r as [a|]; simpl; [eauto|discriminate]. Qed.

Lemma dict_get_set_ne {V} (d : list (string * V)) (k k' : string) (v : V) :
  k <> k' -> dict_get (dict_set d k v) k' = dict_get d k'.
Proof.
  intros Hne. induction d as [|[k0 v0] d IH]; simpl.
  - destruct (String.eqb_spec k k'); [contradiction|reflexivity].
  - destruct (String.eqb_spec k0 k) as [->|]; simpl.
    + destruct (String.eqb_spec k k'); [contradiction|reflexivity].
    + destruct (String.eqb k0 k'); [reflexivity|exact IH].
Qed.

Lemma assign_index (sub : list (string * list cell)) (df : DataFrame) :
  index (assign df sub) = index df.
Proof.
  revert df. induction sub as [|nc sub IH]; intros df; simpl;
    [reflexivity|].
  unfold assign in IH. rewrite IH. reflexivity.
Qed.

Lemma assign_other (sub : list (string * list cell)) (df : DataFrame)
    (n : string) :
  ~ In n (map fst sub) ->
  dict_get (columns (assign df sub)) n = dict_get (columns df) n.
Proof.
  revert df. induction sub as [|nc sub IH]; intros df Hn; simpl;
    [reflexivity|].
  unfold assign in IH. rewrite IH by (simpl in Hn; tauto). simpl.
  apply dict_get_set_ne. simpl in Hn. tauto.
Qed.

Lemma assign_get (sub : list (string * list cell)) (df : DataFrame)
    (n : string) (c : list cell) :
  NoDup (map fst sub) -> In (n, c) sub ->
  dict_get (columns (assign df sub)) n = Some c.
Proof.
  revert df. induction sub as [|nc sub IH]; intros df Hnd Hin; simpl in *;
    [contradiction|].
  apply NoDup_cons in Hnd as [Hfresh Hnd].
  destruct Hin as [->|Hin].
  - fold (assign {| index := index df;
                    columns := dict_set (columns df) n c |} sub).
    rewrite assign_other by (rewrite <- list_elem_of_In; exact Hfresh).
    apply dict_get_set.
  - apply (IH _ Hnd Hin).
Qed.

Lemma Forall2_In_l {A B} (R : A -> B -> Prop) (l : list A) (k : list B)
    (x : A) :
  Forall2 R l k -> In x l -> exists y, In y k /\ R x y.
Proof.
  induction 1 as [|a b l k Hab _ IH]; simpl; [intros []|].
  intros [<-|Hx]; [eauto|]. destruct (IH Hx) as (y & Hy & Hxy). eauto.
Qed.

Lemma absent_nil (df : DataFrame) (names : list string) :
  absent df names = [] <->
  forall n, In n names -> dict_get (columns df) n <> None.
Proof.
  unfold absent. induction names as [|n names IH]; simpl.
  - split; [intros _ n []|reflexivity].
  - destruct (dict_get (columns df) n) eqn:Hn.
    + rewrite IH. split.
      * intros Hall m [<-|Hm]; [congruence|apply Hall, Hm].
      * intros Hall m Hm. apply Hall. right. exact Hm.
    + split; [discriminate|]. intros Hall. exfalso.
      apply (Hall n); [left; reflexivity|exact Hn].
Qed.

Lemma select_Ok (df : DataFrame) (names : list string)
    (sub : list (string * list cell)) :
  select df names = Ok sub <->
  Forall2 (fun n nc => fst nc = n /\ dict_get (columns df) n = Some (snd nc))
          names sub.
Proof.
  unfold select. split.
  - destruct (absent df names); [|discriminate].
    rewrite mapM_Ok. intros Hsel.
    eapply Forall2_impl; [exact Hsel|]. simpl. intros n [n' c].
    unfold getitem. destruct (dict_get (columns df) n); simpl; [|discriminate].
    intros [= <- <-]. auto.
  - intros Hsel.
    assert (Hnone : absent df names = []).
    { apply absent_nil. intros n Hn.
      destruct (Forall2_In_l _ _ _ _ Hsel Hn) as (nc & _ & _ & Hc).
      congruence. }
    rewrite Hnone. apply mapM_Ok.
    eapply Forall2_impl; [exact Hsel|]. simpl. intros n [n' c] [Hn Hc].
    simpl in *. subst n'. unfold getitem. rewrite Hc. reflexivity.
Qed.

(** One round [df[names] = g(df[names])], [g] acting column by column as the
    relation [R] says. *)
Lemma round_columns (R : list cell -> list cell -> Prop) (df : DataFrame)
    (names : list string) :
  forall sub sub',
    Forall2 (fun n nc => fst nc = n /\ dict_get (columns df) n = Some (snd nc))
            names sub ->
    Forall2 (fun nc nc' => fst nc' = fst nc /\ R (snd nc) (snd nc')) sub sub' ->
    map fst sub' = names /\
    forall n, In n names ->
      exists c c',
        dict_get (columns df) n = Some c /\ In (n, c') sub' /\ R c c'.
Proof.
  induction names as [|n0 names IH]; intros sub sub' Hsel Hrel.
  - inversion Hsel; subst. inversion Hrel; subst. split; [reflexivity|].
    intros n [].
  - inversion Hsel as [|? [n1 c1] ? sub1 [Hn Hc] Hsel']; subst.
    inversion Hrel as [|? [n2 c2] ? sub2 [Hn' HR] Hrel']; subst.
    simpl in *. subst.
    destruct (IH _ _ Hsel' Hrel') as [Hfst Hcols]. split.
    + rewrite Hfst. reflexivity.
    + intros n [<-|Hin].
      * exists c1, c2. auto.
      * destruct (Hcols n Hin) as (c & c' & ? & ? & ?).
        exists c, c'. auto.
Qed.

Lemma assign_round (R : list cell -> list cell -> Prop) (df : DataFrame)
    (names : list string) (sub sub' : list (string * list cell)) :
  NoDup names ->
  select df names = Ok sub ->
  Forall2 (fun nc nc' => fst nc' = fst nc /\ R (snd nc) (snd nc')) sub sub' ->
  forall n, In n names ->
    exists c c',
      dict_get (columns df) n = Some c /\
      dict_get (columns (assign df sub')) n = Some c' /\ R c c'.
Proof.
  intros Hnd Hsel Hrel n Hin. apply select_Ok in Hsel.
  destruct (round_columns R df names sub sub' Hsel Hrel) as [Hfst Hcols].
  destruct (Hcols n Hin) as (c & c' & Hc & Hc' & HR).
  exists c, c'. repeat split; auto.
  apply assign_get; [rewrite Hfst; exact Hnd|exact Hc'].
Qed.

Lemma map_cells_rel (f : cell -> cell) (sub : list (string * list cell)) :
  Forall2 (fun nc nc' => fst nc' = fst nc /\ snd nc' = map f (snd nc))
          sub (map_cells f sub).
Proof. induction sub as [|nc sub IH]; simpl; constructor; auto. Qed.

Lemma astype_rel (int_of_str : string -> result Z)
    (sub sub' : list (string * list cell)) :
  astype int_of_str sub = Ok sub' <->
  Forall2 (fun nc nc' => fst nc' = fst nc /\
                         mapM (astype_int int_of_str) (snd nc) = Ok (snd nc'))
          sub sub'.
Proof.
  unfold astype. rewrite mapM_Ok. split; intros Hrel.
  - eapply Forall2_impl; [exact Hrel|]. simpl. intros nc [n' c'].
    destruct (mapM (astype_int int_of_str) (snd nc)); simpl; [|discriminate].
    intros [= <- <-]. auto.
  - eapply Forall2_impl; [exact Hrel|]. simpl. intros nc [n' c'] [Hn Hc].
    simpl in *. rewrite Hc. simpl. congruence.
Qed.

Lemma concerned_columns_NoDup : NoDup concerned_columns.
Proof.
  unfold concerned_columns.
  repeat (apply NoDup_cons; split;
          [rewrite list_elem_of_In; simpl; intuition discriminate|]).
  apply NoDup_nil. exact I.
Qed.

Lemma concerned_not_last_update (n : string) (c : list cell) :
  In n concerned_columns -> ~ In n (map fst [("Last_Update", c)]).
Proof.
  simpl. intros [<-|[<-|[<-|[<-|[]]]]] [Heq|[]]; discriminate.
Qed.

(** The three rounds and the cast, column by column. *)
Lemma preprocess_columns (int_of_str : string -> result Z) (df df' : DataFrame)
    (current_datetime : string) :
  preprocess int_of_str df current_datetime = Ok df' ->
  index df' = index df /\
  forall n, In n concerned_columns ->
    exists col col',
      dict_get (columns df) n = Some col /\
      dict_get (columns df') n = Some col' /\
      mapM (astype_int int_of_str) (map replace_empty0 (map fillna0 col))
        = Ok col'.
Proof.
  unfold preprocess. intros Hrun.
  apply bind_Ok in Hrun as (sub1 & Hs1 & Hrun).
  set (df1 := assign df (map_cells fillna0 sub1)) in *.
  apply bind_Ok in Hrun as (sub2 & Hs2 & Hrun).
  set (df2 := assign df1 (map_cells replace_empty0 sub2)) in *.
  apply bind_Ok in Hrun as (sub3 & Hs3 & Hrun).
  apply bind_Ok in Hrun as (sub4 & Hcast & Hrun).
  revert Hrun.
  intros [= <-]. split.
  - simpl. unfold df2, df1. rewrite !assign_index. reflexivity.
  - intros n Hn.
    destruct (assign_round (fun c c' => c' = map fillna0 c) df _ _ _
                concerned_columns_NoDup Hs1 (map_cells_rel fillna0 sub1) n Hn)
      as (c1 & c1' & Hc1 & Hc1' & ->).
    destruct (assign_round (fun c c' => c' = map replace_empty0 c) df1 _ _ _
                concerned_columns_NoDup Hs2
                (map_cells_rel replace_empty0 sub2) n Hn)
      as (c2 & c2' & Hc2 & Hc2' & ->).
    apply astype_rel in Hcast.
    destruct (assign_round
                (fun c c' => mapM (astype_int int_of_str) c = Ok c') df2 _ _ _
                concerned_columns_NoDup Hs3 Hcast n Hn)
      as (c3 & c3' & Hc3 & Hc3' & Hcast3).
    fold df1 in Hc1'. fold df2 in Hc2'.
    exists c1, c3'. repeat split; [exact Hc1| |].
    + transitivity (dict_get (columns (assign df2 sub4)) n); [|exact Hc3'].
      apply (assign_other [("Last_Update", _)]).
      apply concerned_not_last_update, Hn.
    + congruence.
Qed.

Lemma fits_int64_spec (z : Z) :
  fits_int64 z = true <-> - 2 ^ 63 <= z < 2 ^ 63.
Proof.
  unfold fits_int64. rewrite andb_true_iff, Z.leb_le, Z.ltb_lt. reflexivity.
Qed.

Lemma store_int64_Ok (z : Z) (c : cell) :
  store_int64 z = Ok c <-> c = CInt z /\ - 2 ^ 63 <= z < 2 ^ 63.
Proof.
  unfold store_int64. destruct (fits_int64 z) eqn:Hz.
  - apply fits_int64_spec in Hz. split; [intros [= <-]; auto|].
    intros [-> _]. reflexivity.
  - split; [discriminate|]. intros [_ Hr]. apply fits_int64_spec in Hr.
    congruence.
Qed.

Lemma wrap64_range (z : Z) : - 2 ^ 63 <= wrap64 z < 2 ^ 63.
Proof.
  unfold wrap64.
  pose proof (Z.mod_pos_bound (z + 2 ^ 63) (2 ^ 64) eq_refl). lia.
Qed.

Lemma wrap64_fits (z : Z) : - 2 ^ 63 <= z < 2 ^ 63 -> wrap64 z = z.
Proof. intros Hz. unfold wrap64. rewrite Z.mod_small by lia. lia. Qed.

Lemma cast_float_range (q : Q) : - 2 ^ 63 <= cast_float q < 2 ^ 63.
Proof.
  unfold cast_float. destruct (fits_int64 (truncate q)) eqn:Hq.
  - apply fits_int64_spec, Hq.
  - lia.
Qed.

Lemma cast_float_fits (q : Q) :
  - 2 ^ 63 <= truncate q < 2 ^ 63 -> cast_float q = truncate q.
Proof.
  intros Hq%fits_int64_spec. unfold cast_float. rewrite Hq. reflexivity.
Qed.

Lemma truncate_nonneg (q : Q) : (0 <= q)%Q -> 0 <= truncate q.
Proof.
  unfold Qle, truncate. simpl. intros Hq.
  apply Z.quot_pos; lia.
Qed.

(** What the three steps make of one cell. *)
Lemma cast_cell (int_of_str : string -> result Z) (c c' : cell) :
  astype_int int_of_str (replace_empty0 (fillna0 c)) = Ok c' ->
  exists z, c' = CInt z /\ - 2 ^ 63 <= z < 2 ^ 63 /\
            normalized_value int_of_str c z /\
            (forall n, c = CInt n -> - 2 ^ 63 <= n < 0 -> z < 0) /\
            (raw_nonneg c -> 0 <= z).
Proof.
  destruct c as [|n|q| |[|a s]]; simpl.
  - intros [= <-]. exists 0. repeat split; try lia. discriminate.
  - intros [= <-]. exists (wrap64 n). pose proof (wrap64_range n).
    repeat split; try lia.
    + apply wrap64_fits.
    + intros m [= <-] Hm. rewrite wrap64_fits; lia.
    + intros Hn. rewrite wrap64_fits; lia.
  - intros [= <-]. exists (cast_float q). pose proof (cast_float_range q).
    repeat split; try lia.
    + apply cast_float_fits.
    + discriminate.
    + intros [Hq Hfit]. pose proof (truncate_nonneg q Hq).
      rewrite cast_float_fits; lia.
  - discriminate.
  - intros [= <-]. exists 0. repeat split; try lia. discriminate.
  - intros (z & Hz & Hc)%bind_Ok. apply store_int64_Ok in Hc as [-> Hr].
    exists z. repeat split; try lia; try tauto. discriminate.
Qed.

(** The cells the cast accepts. *)
Lemma cast_cell_castable (int_of_str : string -> result Z) (c : cell) :
  castable int_of_str c <->
  exists c', astype_int int_of_str (replace_empty0 (fillna0 c)) = Ok c'.
Proof.
  destruct c as [|n|q| |[|a s]]; simpl.
  - split; eauto.
  - split; eauto.
  - split; eauto.
  - split; [intros []|intros [c' [=]]].
  - split; eauto.
  - split.
    + intros (z & Hr & ->). simpl. exists (CInt z). apply store_int64_Ok.
      auto.
    + intros [c' (z & Hz & Hc)%bind_Ok].
      apply store_int64_Ok in Hc as [_ Hr]. eauto.
Qed.

Lemma mapM_total {A B} (f : A -> result B) (l : list A) :
  Forall (fun x => exists y, f x = Ok y) l -> exists k, mapM f l = Ok k.
Proof.
  induction 1 as [|x l [y Hy] _ [k Hk]]; simpl.
  - eauto.
  - rewrite Hy. simpl. rewrite Hk. simpl. eauto.
Qed.

Lemma select_total (df : DataFrame) (names : list string) :
  (forall n, In n names -> exists c, dict_get (columns df) n = Some c) ->
  exists sub, select df names = Ok sub.
Proof.
  intros Hcols. unfold select.
  assert (Hnone : absent df names = []).
  { apply absent_nil. intros n Hn. destruct (Hcols n Hn) as [c Hc].
    congruence. }
  rewrite Hnone. apply mapM_total, Forall_forall. intros n Hn.
  destruct (Hcols n) as [c Hc]; [apply list_elem_of_In, Hn|].
  unfold getitem. rewrite Hc. simpl. eauto.
Qed.

Lemma select_In (df : DataFrame) (names : list string)
    (sub : list (string * list cell)) (nc : string * list cell) :
  select df names = Ok sub -> In nc sub ->
  In (fst nc) names /\ dict_get (columns df) (fst nc) = Some (snd nc).
Proof.
  rewrite select_Ok. induction 1 as [|n nc0 names sub [Hn Hc] _ IH]; simpl.
  - intros [].
  - intros [<-|Hin]; [subst; auto|]. destruct (IH Hin). auto.
Qed.

Lemma bind_Ok_intro {A B} (r : result A) (k : A -> result B) (a : A) (b : B) :
  r = Ok a -> k a = Ok b -> r ≫= k = Ok b.
Proof. intros -> Hk. exact Hk. Qed.

(** The pre-processing returns as soon as the four columns exist and each of
    their cells stands for a 64-bit integer. *)
Lemma preprocess_returns (int_of_str : string -> result Z) (df : DataFrame)
    (current_datetime : string) :
  (forall n, In n concerned_columns ->
     exists col,
       dict_get (columns df) n = Some col /\
       Forall (castable int_of_str) col) ->
  exists df', preprocess int_of_str df current_datetime = Ok df'.
Proof.
  intros Hcols. unfold preprocess.
  destruct (select_total df concerned_columns) as [sub1 Hs1].
  { intros n Hn. destruct (Hcols n Hn) as (col & ? & _). eauto. }
  set (df1 := assign df (map_cells fillna0 sub1)).
  assert (H1 : forall n, In n concerned_columns ->
             exists col, dict_get (columns df) n = Some col /\
                         dict_get (columns df1) n = Some (map fillna0 col)).
  { intros n Hn.
    destruct (assign_round (fun c c' => c' = map fillna0 c) df _ _ _
                concerned_columns_NoDup Hs1 (map_cells_rel fillna0 sub1) n Hn)
      as (c & c' & ? & ? & ->). eauto. }
  destruct (select_total df1 concerned_columns) as [sub2 Hs2].
  { intros n Hn. destruct (H1 n Hn) as (col & _ & ?). eauto. }
  set (df2 := assign df1 (map_cells replace_empty0 sub2)).
  assert (H2 : forall n, In n concerned_columns ->
             exists col, dict_get (columns df) n = Some col /\
                         dict_get (columns df2) n
                         = Some (map replace_empty0 (map fillna0 col))).
  { intros n Hn. destruct (H1 n Hn) as (col & Hcol & Hcol1).
    destruct (assign_round (fun c c' => c' = map replace_empty0 c) df1 _ _ _
                concerned_columns_NoDup Hs2
                (map_cells_rel replace_empty0 sub2) n Hn)
      as (c & c' & Hc & Hc' & ->).
    exists col. split; [exact Hcol|].
    assert (c = map fillna0 col) as -> by congruence. exact Hc'. }
  destruct (select_total df2 concerned_columns) as [sub3 Hs3].
  { intros n Hn. destruct (H2 n Hn) as (col & _ & ?). eauto. }
  destruct (mapM_total
              (fun nc => col ← mapM (astype_int int_of_str) (snd nc);
                         Ok (fst nc, col)) sub3) as [sub4 Hcast].
  { apply Forall_forall. intros nc Hnc. apply list_elem_of_In in Hnc.
    destruct (select_In _ _ _ _ Hs3 Hnc) as [Hn Hc].
    destruct (H2 _ Hn) as (col & Hcol & Hcol2).
    destruct (Hcols _ Hn) as (col0 & Hcol0 & Hcells).
    assert (col0 = col) by congruence. subst col0.
    destruct (mapM_total (astype_int int_of_str) (snd nc)) as [col' Hcol'].
    { assert (snd nc = map replace_empty0 (map fillna0 col)) as -> by congruence.
      rewrite map_map. apply Forall_map.
      eapply Forall_impl; [exact Hcells|]. simpl.
      intros c Hcell. apply cast_cell_castable, Hcell. }
    rewrite Hcol'. simpl. eauto. }
  eexists.
  eapply bind_Ok_intro; [exact Hs1|]. fold df1.
  eapply bind_Ok_intro; [exact Hs2|]. fold df2.
  eapply bind_Ok_intro; [exact Hs3|].
  eapply bind_Ok_intro; [exact Hcast|]. reflexivity.
Qed.

(** C3, amended. When the pre-processing of a daily report returns, the
    table has as many rows as before and each of the four numeric columns
    holds only 64-bit integers, no missing or empty cell: 0 where the raw
    cell was missing or empty; a raw integer that fits 64 bits unchanged, so
    a negative count stays negative; a raw float whose integer part fits 64
    bits truncated toward zero; a text as Python's [int] reads it.  So a
    cell is non-negative where the raw cell was missing, empty or a
    non-negative number that fits 64 bits. *)
Theorem preprocess_numeric_columns (int_of_str : string -> result Z)
    (df df' : DataFrame) (current_datetime : string) :
  preprocess int_of_str df current_datetime = Ok df' ->
  index df' = index df /\
  forall name, In name concerned_columns ->
    exists col col',
      dict_get (columns df) name = Some col /\
      dict_get (columns df') name = Some col' /\
      Forall2 (fun c c' =>
                 exists z, c' = CInt z /\ - 2 ^ 63 <= z < 2 ^ 63 /\
                           normalized_value int_of_str c z /\
                           (forall n, c = CInt n -> - 2 ^ 63 <= n < 0 ->
                                      z < 0) /\
                           (raw_nonneg c -> 0 <= z)) col col'.
Proof.
  intros Hrun. apply preprocess_columns in Hrun as [Hindex Hcols].
  split; [exact Hindex|]. intros name Hname.
  destruct (Hcols name Hname) as (col & col' & Hcol & Hcol' & Hcast).
  exists col, col'. repeat split; auto.
  rewrite map_map in Hcast. apply mapM_Ok in Hcast.
  apply Forall2_fmap_l in Hcast.
  eapply Forall2_impl; [exact Hcast|]. simpl.
  intros c c' Hc. apply (cast_cell _ _ _ Hc).
Qed.

Lemma preprocess_numeric_columns_witness :
  exists df',
    preprocess examples.int_of_str examples.report "03-19-2020" = Ok df' /\
    index df' = index examples.report /\
    forall name, In name concerned_columns ->
      exists col col',
        dict_get (columns examples.report) name = Some col /\
        dict_get (columns df') name = Some col' /\
        Forall2 (fun c c' =>
                   exists z, c' = CInt z /\ - 2 ^ 63 <= z < 2 ^ 63 /\
                             normalized_value examples.int_of_str c z /\
                             (forall n, c = CInt n -> - 2 ^ 63 <= n < 0 ->
                                        z < 0) /\
                             (raw_nonneg c -> 0 <= z)) col col'.
Proof.
  eexists. split; [reflexivity|].
  apply (preprocess_numeric_columns examples.int_of_str examples.report _
           "03-19-2020").
  reflexivity.
Defined.

(** C3 as stated fails: a report whose Active column holds -5 is
    pre-processed without error and the -5 is still there. *)
Lemma preprocess_keeps_negative_counts :
  exists df',
    preprocess examples.int_of_str examples.report "03-19-2020" = Ok df' /\
    dict_get (columns df') "Active" = Some [CInt 279; CInt (-5)] /\
    ~ numeric_columns_nonneg df'.
Proof.
  eexists. split; [reflexivity|]. split; [reflexivity|].
  intros Hnonneg. destruct (Hnonneg "Active") as (col & Hcol & Hall).
  - simpl. auto.
  - vm_compute in Hcol. injection Hcol as <-.
    apply Forall_cons in Hall as [_ Hall].
    apply Forall_cons in Hall as [(z & [= <-] & Hz) _]. lia.
Qed.

End dataframe.

(** ** The cache-aside wrapper *)

Section cache.
Import Py spec main.
Context {M R : Type}.
Variable builder : Z -> result M.
Variable dumps : M -> result bytes.
Variable loads : bytes -> result M.
Variable func : M -> R.

Lemma redis_get_cached (now : Z) (pickled : bytes) (expires : Z) :
  redis_get now (cached pickled expires) "api_2_model"
  = if now <=? expires then Some pickled else None.
Proof. unfold redis_get, cached. rewrite lookup_insert_eq. reflexivity. Qed.

(** A call while the entry is live: no build, the store untouched, the
    pickled model loaded. *)
Lemma reload_hit (t : call_times) (pickled : bytes) (expires : Z)
    (log : list Z) :
  pickled <> [] -> t_check t <= expires -> t_use t <= expires ->
  reload_model_api_v2 builder dumps loads func t
    {| store := cached pickled expires; builds := log |}
  = ({| store := cached pickled expires; builds := log |},
     m ← loads pickled; Ok (func m)).
Proof using Type.
  intros Hne Hcheck Huse. unfold reload_model_api_v2. simpl.
  rewrite !redis_get_cached.
  destruct (Z.leb_spec (t_check t) expires); [|lia].
  destruct (Z.leb_spec (t_use t) expires); [|lia].
  destruct pickled as [|b pickled]; [contradiction|]. simpl.
  destruct (loads (b :: pickled)); reflexivity.
Qed.

(** A call when the entry has expired: the builder runs. *)
Lemma reload_expired (t : call_times) (pickled : bytes) (expires : Z)
    (log : list Z) :
  expires < t_check t ->
  reload_model_api_v2 builder dumps loads func t
    {| store := cached pickled expires; builds := log |}
  = match builder (t_check t) with
    | Raise exn =>
        ({| store := cached pickled expires; builds := log ++ [t_check t] |},
         Raise exn)
    | Ok m =>
        match dumps m with
        | Raise exn =>
            ({| store := cached pickled expires;
                builds := log ++ [t_check t] |}, Raise exn)
        | Ok pickled' =>
            ({| store := cached pickled' (t_use t + 3600);
                builds := log ++ [t_check t] |}, Ok (func m))
        end
    end.
Proof using Type.
  intros Hexp. unfold reload_model_api_v2. simpl.
  rewrite redis_get_cached.
  destruct (Z.leb_spec (t_check t) expires); [lia|]. simpl.
  destruct (builder (t_check t)) as [m|]; [|reflexivity].
  destruct (dumps m) as [pickled'|]; [|reflexivity].
  unfold redis_setex, cached. rewrite insert_insert_eq. reflexivity.
Qed.

Lemma serve_hits (ts : list call_times) (pickled : bytes) (expires : Z)
    (log : list Z) :
  pickled <> [] ->
  Forall (fun t => t_check t <= t_use t <= expires) ts ->
  serve builder dumps loads func ts
    {| store := cached pickled expires; builds := log |}
  = ({| store := cached pickled expires; builds := log |},
     map (fun _ => m ← loads pickled; Ok (func m)) ts).
Proof using Type.
  intros Hne. induction 1 as [|t ts Ht _ IH]; simpl; [reflexivity|].
  rewrite reload_hit by (auto; lia). rewrite IH. reflexivity.
Qed.

(** C6. Serialized calls on an initially empty store.  The first call
    invokes the builder once and stores the pickled model under a TTL of
    3600 seconds; every later call that finds the entry live (Redis serves
    it up to and including the instant it expires at) invokes the builder no
    more, leaves the store as it is and hands the handler the unpickled
    stored bytes; the first call after the TTL has elapsed invokes the
    builder again and stores its result for another 3600 seconds. *)
Theorem reload_model_api_v2_cache_aside (t0 : call_times) (m0 : M)
    (pickled : bytes) (later : list call_times) (t1 : call_times) :
  builder (t_check t0) = Ok m0 ->
  dumps m0 = Ok pickled ->
  pickled <> [] ->
  Forall (fun t => t_check t <= t_use t <= t_use t0 + 3600) later ->
  t_use t0 + 3600 < t_check t1 ->
  let w1 := {| store := cached pickled (t_use t0 + 3600);
               builds := [t_check t0] |} in
  reload_model_api_v2 builder dumps loads func t0 empty_world
    = (w1, Ok (func m0)) /\
  serve builder dumps loads func later w1
    = (w1, map (fun _ => m ← loads pickled; Ok (func m)) later) /\
  builds (fst (reload_model_api_v2 builder dumps loads func t1 w1))
    = [t_check t0; t_check t1] /\
  forall m1 pickled1,
    builder (t_check t1) = Ok m1 -> dumps m1 = Ok pickled1 ->
    reload_model_api_v2 builder dumps loads func t1 w1
    = ({| store := cached pickled1 (t_use t1 + 3600);
          builds := [t_check t0; t_check t1] |}, Ok (func m1)).
Proof using Type.
  intros Hbuild Hdumps Hne Hlive Hexp w1. repeat split.
  - unfold reload_model_api_v2, empty_world. simpl.
    unfold redis_get. rewrite lookup_empty. simpl.
    rewrite Hbuild, Hdumps. reflexivity.
  - apply serve_hits; assumption.
  - unfold w1. rewrite reload_expired by exact Hexp.
    destruct (builder (t_check t1)) as [m|]; [|reflexivity].
    destruct (dumps m); reflexivity.
  - intros m1 pickled1 Hb1 Hd1. unfold w1.
    rewrite reload_expired by exact Hexp. rewrite Hb1, Hd1. reflexivity.
Qed.

End cache.

Lemma reload_model_api_v2_cache_aside_witness :
  let t0 := {| main.t_check := 0; main.t_use := 1 |} in
  let later := [{| main.t_check := 10; main.t_use := 10 |};
                {| main.t_check := 3600; main.t_use := 3601 |}] in
  let t1 := {| main.t_check := 3602; main.t_use := 3603 |} in
  let pickled := [Byte.x80; Byte.x00] in
  let w1 := {| main.store := spec.cached pickled 3601;
               main.builds := [0] |} in
  main.reload_model_api_v2 examples.builder examples.dumps examples.loads
      Z.succ t0 spec.empty_world = (w1, Py.Ok 1) /\
  main.serve examples.builder examples.dumps examples.loads Z.succ later w1
    = (w1, map (fun _ => m ← examples.loads pickled; Py.Ok (Z.succ m)) later) /\
  main.builds (fst (main.reload_model_api_v2 examples.builder examples.dumps
                      examples.loads Z.succ t1 w1)) = [0; 3602] /\
  forall m1 pickled1,
    examples.builder 3602 = Py.Ok m1 -> examples.dumps m1 = Py.Ok pickled1 ->
    main.reload_model_api_v2 examples.builder examples.dumps examples.loads
        Z.succ t1 w1
    = ({| main.store := spec.cached pickled1 7203;
          main.builds := [0; 3602] |}, Py.Ok (Z.succ m1)).
Proof.
  refine (reload_model_api_v2_cache_aside examples.builder examples.dumps
            examples.loads Z.succ
            {| main.t_check := 0; main.t_use := 1 |} 0 [Byte.x80; Byte.x00]
            [{| main.t_check := 10; main.t_use := 10 |};
             {| main.t_check := 3600; main.t_use := 3601 |}]
            {| main.t_check := 3602; main.t_use := 3603 |}
            eq_refl eq_refl _ _ _).
  - discriminate.
  - repeat constructor; simpl; lia.
  - simpl. lia.
Defined.

(** * Further properties *)

(** ** The shape of a resolved country name *)

Section resolved_name.
Import Py spec main.

Lemma has_char_segment_before_first (sep : ascii) (s : string) :
  has_char sep (segment_before_first sep s) = false.
Proof.
  induction s as [|c s IH]; simpl; [reflexivity|].
  destruct (Ascii.eqb c sep) eqn:Hc; simpl; [reflexivity|].
  rewrite Hc, IH. reflexivity.
Qed.

Lemma has_char_segment_after_last (sep : ascii) (s : string) :
  has_char sep (segment_after_last sep s) = false.
Proof.
  induction s as [|c s IH]; simpl; [reflexivity|].
  destruct (has_char sep s) eqn:Hs; [exact IH|].
  destruct (Ascii.eqb c sep) eqn:Hc; [exact Hs|].
  simpl. rewrite Hc, Hs. reflexivity.
Qed.

Lemma segment_after_last_suffix (sep : ascii) (s : string) :
  exists pre, s = pre ++ segment_after_last sep s.
Proof.
  induction s as [|c s [pre IH]]; simpl.
  - exists EmptyString. reflexivity.
  - destruct (has_char sep s).
    + exists (String c pre).
      change (String c s = String c (pre ++ segment_after_last sep s)).
      f_equal. exact IH.
    + destruct (Ascii.eqb c sep).
      * exists (String c EmptyString). reflexivity.
      * exists EmptyString. reflexivity.
Qed.

Lemma prefix_refl (s : string) : String.prefix s s = true.
Proof.
  induction s as [|c s IH]; simpl; [reflexivity|].
  destruct (ascii_dec c c); [exact IH|contradiction].
Qed.

Lemma prefix_segment_before_first (sep : ascii) (s : string) :
  String.prefix (segment_before_first sep s) s = true.
Proof.
  induction s as [|c s IH]; simpl; [reflexivity|].
  destruct (Ascii.eqb c sep); simpl; [reflexivity|].
  destruct (ascii_dec c c); [exact IH|contradiction].
Qed.

Lemma str_in_prefix (x s : string) :
  String.prefix x s = true -> str_in x s = true.
Proof. intros Hp. destruct s; cbn [str_in]; rewrite Hp; reflexivity. Qed.

Lemma str_in_app_r (x pre s : string) :
  str_in x s = true -> str_in x (pre ++ s) = true.
Proof.
  intros Hs. induction pre as [|c pre IH]; [exact Hs|].
  change (str_in x (String c (pre ++ s)) = true). cbn [str_in].
  rewrite IH. destruct (String.prefix x (String c (pre ++ s))); reflexivity.
Qed.

(** X1. The name [lookup_country] returns occurs in the name pycountry gave,
    holds no comma, and holds no space unless that name had a comma. *)
Theorem lookup_country_shape (pyc : string -> result string)
    (code name : string) :
  pyc code = Ok name ->
  exists r,
    lookup_country pyc code = Ok r /\
    str_in r name = true /\
    has_char "," r = false /\
    (has_char "," name = false -> has_char " " r = false).
Proof.
  intros Hpyc. exists (resolve_name name).
  split; [apply lookup_country_resolve_name, Hpyc|].
  unfold resolve_name. destruct (has_char "," name) eqn:Hcomma.
  - repeat split.
    + apply str_in_prefix, prefix_segment_before_first.
    + apply has_char_segment_before_first.
    + discriminate.
  - destruct (has_char " " name) eqn:Hspace.
    + destruct (segment_after_last_suffix " " name) as [pre Hpre].
      repeat split.
      * rewrite Hpre at 2. apply str_in_app_r, str_in_prefix, prefix_refl.
      * destruct (has_char "," (segment_after_last " " name)) eqn:Hc;
          [|reflexivity].
        rewrite Hpre, has_char_app, Hc, orb_true_r in Hcomma. discriminate.
      * intros _. apply has_char_segment_after_last.
    + repeat split; auto. apply str_in_prefix, prefix_refl.
Qed.

Lemma lookup_country_shape_witness :
  exists r,
    lookup_country examples.pycountry_lookup "za" = Ok r /\
    str_in r "South Africa" = true /\
    has_char "," r = false /\
    (has_char "," "South Africa" = false -> has_char " " r = false).
Proof.
  apply (lookup_country_shape examples.pycountry_lookup "za" "South Africa").
  reflexivity.
Defined.

End resolved_name.

(** ** More on the country and time-series routes *)

Section routes.
Import Py spec main.

Lemma length_lower (s : string) : String.length (lower s) = String.length s.
Proof. induction s as [|c s IH]; simpl; [reflexivity|]. rewrite IH. reflexivity. Qed.

Lemma is_code_lower (cn cn' : string) :
  lower cn = lower cn' -> is_code cn = is_code cn'.
Proof.
  intros Heq. unfold is_code.
  rewrite <- (length_lower cn), <- (length_lower cn'), Heq. reflexivity.
Qed.

Lemma lower_ascii_idempotent (c : ascii) :
  lower_ascii (lower_ascii c) = lower_ascii c.
Proof. destruct c as [[] [] [] [] [] [] [] []]; reflexivity. Qed.

Lemma lower_idempotent (s : string) : lower (lower s) = lower s.
Proof.
  induction s as [|c s IH]; simpl; [reflexivity|].
  rewrite lower_ascii_idempotent, IH. reflexivity.
Qed.

(** X2. ASCII queries are case-insensitive.  An ASCII country name that is
    not taken for a code gets the same answer, on both routes, in any letter
    case and whatever the pycountry data; an ASCII time-series case gets the
    same answer in any letter case; in particular each gets the answer of
    its lowercased form. *)
Theorem queries_are_case_insensitive (pyc pyc' : string -> result string)
    (api : NovelCoronaAPI) (api2 : NovelCoronaAPIv2) (q q' : string) :
  is_ascii q = true -> is_ascii q' = true ->
  lower q = lower q' ->
  (is_code q = false ->
   country pyc api q = country pyc' api q' /\
   get_country pyc api2 q = get_country pyc' api2 q') /\
  timeseries api q = timeseries api q' /\
  get_time_series api2 q = get_time_series api2 q' /\
  timeseries api (lower q) = timeseries api q /\
  get_time_series api2 (lower q) = get_time_series api2 q.
Proof.
  intros _ _ Heq. split; [|split; [|split; [|split]]].
  - intros Hq. pose proof Hq as Hq'. rewrite (is_code_lower q q' Heq) in Hq'.
    split.
    + unfold country, country_try. rewrite Hq, Hq', Heq. reflexivity.
    + unfold get_country, get_country_try. rewrite Hq, Hq', Heq. reflexivity.
  - unfold timeseries. rewrite Heq. reflexivity.
  - unfold get_time_series. rewrite Heq. reflexivity.
  - unfold timeseries. rewrite lower_idempotent. reflexivity.
  - unfold get_time_series. rewrite lower_idempotent. reflexivity.
Qed.

Lemma queries_are_case_insensitive_witness :
  (is_code "THAILAND" = false ->
   country examples.pycountry_lookup examples.api_v1 "THAILAND"
   = country (fun _ => Ok "Atlantis") examples.api_v1 "thailand" /\
   get_country examples.pycountry_lookup examples.api_v2 "THAILAND"
   = get_country (fun _ => Ok "Atlantis") examples.api_v2 "thailand") /\
  timeseries examples.api_v1 "THAILAND" = timeseries examples.api_v1 "thailand" /\
  get_time_series examples.api_v2 "THAILAND"
  = get_time_series examples.api_v2 "thailand" /\
  timeseries examples.api_v1 (lower "THAILAND")
  = timeseries examples.api_v1 "THAILAND" /\
  get_time_series examples.api_v2 (lower "THAILAND")
  = get_time_series examples.api_v2 "THAILAND".
Proof.
  apply (queries_are_case_insensitive examples.pycountry_lookup
           (fun _ => Ok "Atlantis") examples.api_v1 examples.api_v2
           "THAILAND" "thailand"); reflexivity.
Defined.

(** The comprehension of [get_country] on records that all have a string
    location. *)
Lemma filterM_well_formed (test : string -> bool) (records : list value) :
  Forall well_formed_record records ->
  filterM (fun i => loc ← location_lower i; Ok (test loc)) records
  = Ok (List.filter
          (fun r => match r with
                    | VDict rec =>
                        match dict_get rec "location" with
                        | Some (VStr loc) => test (lower loc)
                        | _ => false
                        end
                    | _ => false
                    end) records).
Proof.
  induction 1 as [|r records (rec & loc & -> & Hloc) _ IH];
    [reflexivity|].
  cbn [filterM List.filter]. rewrite IH. simpl. rewrite Hloc. simpl.
  destruct (test (lower loc)); reflexivity.
Qed.

Lemma first_filter {A} (f : A -> bool) (l : list A) :
  first (List.filter f l)
  = match List.find f l with
    | Some x => Ok x
    | None => Raise IndexError
    end.
Proof.
  induction l as [|x l IH]; simpl; [reflexivity|].
  destruct (f x); [reflexivity|exact IH].
Qed.

Lemma find_ext {A} (f g : A -> bool) (l : list A) :
  (forall x, f x = g x) -> List.find f l = List.find g l.
Proof.
  intros Hfg. induction l as [|x l IH]; simpl; [reflexivity|].
  rewrite Hfg, IH. reflexivity.
Qed.

Lemma find_none {A} (f : A -> bool) (l : list A) :
  (forall x, f x = false) -> List.find f l = None.
Proof.
  intros Hf. induction l as [|x l IH]; simpl; [reflexivity|].
  rewrite Hf. exact IH.
Qed.

(** X3. On current data whose records all carry a string location,
    [/v2/country/{name}] returns the data with its [data] field replaced by
    the first record that answers the query, and answers 404 "Item not
    found" when none does (an unknown two-letter code matches nothing). *)
Theorem get_country_on_well_formed_data (pyc : string -> result string)
    (api : NovelCoronaAPIv2) (country_name : string) (d : dict)
    (records : list value) :
  v2_get_current api = Ok (VDict d) ->
  dict_get d "data" = Some (VList records) ->
  Forall well_formed_record records ->
  get_country pyc api country_name
  = match List.find (record_matches pyc country_name) records with
    | Some r => Return (VDict (dict_set d "data" r))
    | None => item_not_found
    end.
Proof.
  intros Hraw Hd Hwf. unfold get_country, get_country_try. rewrite Hraw.
  destruct (is_code country_name) eqn:Hcode.
  - destruct (lookup_country pyc country_name) as [name|exn] eqn:Hname.
    + cbn [mbind result_bind subscript]. unfold getitem. rewrite Hd.
      cbn [mbind result_bind iter].
      rewrite (filterM_well_formed _ _ Hwf). cbn [mbind result_bind].
      rewrite first_filter.
      rewrite (find_ext _ (record_matches pyc country_name)).
      * destruct (List.find _ records); reflexivity.
      * intros [| | | |rec]; try reflexivity. simpl.
        unfold location_matches. rewrite Hcode, Hname. reflexivity.
    + cbn [mbind result_bind]. rewrite find_none; [reflexivity|].
      intros [| | | |rec]; try reflexivity. simpl.
      unfold location_matches. rewrite Hcode, Hname.
      destruct (dict_get rec "location") as [[]|]; reflexivity.
  - cbn [mbind result_bind subscript]. unfold getitem. rewrite Hd.
    cbn [mbind result_bind iter].
    rewrite (filterM_well_formed _ _ Hwf). cbn [mbind result_bind].
    rewrite first_filter.
    rewrite (find_ext _ (record_matches pyc country_name)).
    + destruct (List.find _ records); reflexivity.
    + intros [| | | |rec]; try reflexivity. simpl.
      unfold location_matches. rewrite Hcode. reflexivity.
Qed.

Lemma get_country_on_well_formed_data_witness :
  get_country examples.pycountry_lookup examples.api_v2 "kr"
  = match List.find (record_matches examples.pycountry_lookup "kr")
                    [VDict examples.thailand; VDict examples.south_korea] with
    | Some r =>
        Return (VDict (dict_set [("data", VList [VDict examples.thailand;
                                                 VDict examples.south_korea]);
                                 ("dt", VStr "3/20/20");
                                 ("ts", VInt 1584662400)] "data" r))
    | None => item_not_found
    end.
Proof.
  apply (get_country_on_well_formed_data examples.pycountry_lookup
           examples.api_v2 "kr").
  - reflexivity.
  - reflexivity.
  - repeat constructor.
    + exists examples.thailand, "Thailand". split; reflexivity.
    + exists examples.south_korea, "South Korea". split; reflexivity.
Defined.

Lemma filterM_poison {A} (p : A -> result bool) (xs : list A) (x : A)
    (exn : pyexn) :
  In x xs -> p x = Raise exn -> exists exn', filterM p xs = Raise exn'.
Proof.
  intros Hin Hx. induction xs as [|y ys IH]; simpl in *; [contradiction|].
  destruct (p y) as [b|exn'] eqn:Hy; simpl; [|eauto].
  destruct Hin as [->|Hin]; [congruence|].
  destruct (IH Hin) as [exn' ->]. simpl. eauto.
Qed.

(** X4. One record without a string location, anywhere in the current data,
    turns every [/v2/country/{name}] query into a 404, whether or not
    another record answers it. *)
Theorem get_country_malformed_record (pyc : string -> result string)
    (api : NovelCoronaAPIv2) (country_name : string) (d : dict)
    (records : list value) (r : value) :
  v2_get_current api = Ok (VDict d) ->
  dict_get d "data" = Some (VList records) ->
  In r records -> ~ well_formed_record r ->
  get_country pyc api country_name = item_not_found.
Proof.
  intros Hraw Hd Hin Hbad. unfold get_country. rewrite Hraw.
  destruct (get_country_try pyc (VDict d) country_name) as [body|] eqn:Htry;
    [|reflexivity].
  exfalso.
  assert (Hr : exists exn, location_lower r = Raise exn).
  { destruct (location_lower r) as [l|exn] eqn:Hl; [|eauto].
    apply location_lower_ok in Hl as (rec & loc & -> & Hloc & _).
    exfalso. apply Hbad. exists rec, loc. auto. }
  destruct Hr as [exn Hr].
  unfold get_country_try in Htry.
  destruct (is_code country_name).
  - destruct (lookup_country pyc country_name) as [name|];
      cbn [mbind result_bind subscript] in Htry; [|discriminate].
    unfold getitem in Htry. rewrite Hd in Htry.
    cbn [mbind result_bind iter] in Htry.
    destruct (filterM_poison
                (fun i => loc ← location_lower i;
                          Ok (str_in (lower name) loc)) records r exn Hin)
      as [exn' Hf]; [rewrite Hr; reflexivity|].
    rewrite Hf in Htry. discriminate.
  - cbn [mbind result_bind subscript] in Htry.
    unfold getitem in Htry. rewrite Hd in Htry.
    cbn [mbind result_bind iter] in Htry.
    destruct (filterM_poison
                (fun i => loc ← location_lower i;
                          Ok (String.eqb (lower country_name) loc))
                records r exn Hin)
      as [exn' Hf]; [rewrite Hr; reflexivity|].
    rewrite Hf in Htry. discriminate.
Qed.

Lemma get_country_malformed_record_witness :
  get_country examples.pycountry_lookup examples.api_v2_malformed "Thailand"
  = item_not_found.
Proof.
  apply (get_country_malformed_record examples.pycountry_lookup
           examples.api_v2_malformed "Thailand"
           [("data", VList [VDict examples.thailand;
                            VDict (examples.counts 8652 94 1540 7018)]);
            ("dt", VStr "3/20/20"); ("ts", VInt 1584662400)]
           [VDict examples.thailand; VDict (examples.counts 8652 94 1540 7018)]
           (VDict (examples.counts 8652 94 1540 7018))).
  - reflexivity.
  - reflexivity.
  - right. left. reflexivity.
  - intros (rec & loc & [= <-] & Hloc). discriminate.
Defined.

Lemma In_dict_set_ne {V} (d : list (string * V)) (k0 k : string) (v0 v : V) :
  k <> k0 -> In (k, v) (dict_set d k0 v0) <-> In (k, v) d.
Proof.
  intros Hne. induction d as [|[k1 v1] d IH]; simpl.
  - split; [intros [[= <- <-]|[]]; contradiction|intros []].
  - destruct (String.eqb_spec k1 k0) as [->|Hk]; simpl.
    + split; (intros [[= <- <-]|Hin]; [contradiction|right; exact Hin]).
    + rewrite IH. reflexivity.
Qed.

(** What [country] does with a current status that is a dict. *)
Lemma country_on_dict (pyc : string -> result string) (api : NovelCoronaAPI)
    (country_name : string) (d : dict) :
  v1_get_current_status api false = Ok (VDict d) ->
  country pyc api country_name
  = match (if is_code country_name then
             match lookup_country pyc country_name with
             | Ok name => Some (str_in (lower name))
             | Raise _ => None
             end
           else Some (String.eqb (lower country_name))) with
    | None => item_not_found
    | Some test =>
        match dict_get d "dt", dict_get d "ts" with
        | Some dt, Some ts =>
            Return (VDict (dict_set
                             (dict_set
                                (filter (fun kv => test (lower (fst kv))) d)
                                "dt" dt)
                             "ts" ts))
        | _, _ => item_not_found
        end
    end.
Proof.
  intros Hraw. unfold country, country_try. rewrite Hraw.
  destruct (is_code country_name).
  - destruct (lookup_country pyc country_name) as [name|]; [|reflexivity].
    cbn [mbind result_bind items subscript]. unfold getitem.
    destruct (dict_get d "dt"); [|reflexivity].
    cbn [mbind result_bind]. destruct (dict_get d "ts"); reflexivity.
  - cbn [mbind result_bind items subscript]. unfold getitem.
    destruct (dict_get d "dt"); [|reflexivity].
    cbn [mbind result_bind]. destruct (dict_get d "ts"); reflexivity.
Qed.

Lemma body_entries (test : string -> bool) (d : dict) (dt ts : value)
    (k : string) (v : value) :
  k <> "dt" -> k <> "ts" ->
  In (k, v) (dict_set
               (dict_set (filter (fun kv => test (lower (fst kv))) d) "dt" dt)
               "ts" ts)
  <-> In (k, v) d /\ test (lower k) = true.
Proof.
  intros Hdt Hts. rewrite !In_dict_set_ne by assumption.
  rewrite <- !list_elem_of_In, list_elem_of_filter. simpl.
  rewrite Is_true_true. tauto.
Qed.

(** X5. When [/country/{name}] (v1) returns, its body holds [dt] and [ts] of
    the current status and, beside them, exactly the entries of the current
    status whose key answers the query: all of them, not only the first. *)
Theorem country_returns_all_matches (pyc : string -> result string)
    (api : NovelCoronaAPI) (country_name : string) (d : dict) (body : value) :
  v1_get_current_status api false = Ok (VDict d) ->
  country pyc api country_name = Return body ->
  exists dt ts data,
    dict_get d "dt" = Some dt /\ dict_get d "ts" = Some ts /\
    body = VDict data /\
    dict_get data "dt" = Some dt /\ dict_get data "ts" = Some ts /\
    forall k v, k <> "dt" -> k <> "ts" ->
      (In (k, v) data <->
       In (k, v) d /\ location_matches pyc country_name k = true).
Proof.
  intros Hraw. rewrite (country_on_dict _ _ _ _ Hraw).
  unfold location_matches.
  destruct (is_code country_name).
  - destruct (lookup_country pyc country_name) as [name|]; [|discriminate].
    destruct (dict_get d "dt") as [dt|]; [|discriminate].
    destruct (dict_get d "ts") as [ts|]; [|discriminate].
    intros [= <-]. exists dt, ts. eexists.
    split; [reflexivity|]. split; [reflexivity|]. split; [reflexivity|].
    split; [rewrite dict_get_set_ne by discriminate; apply dict_get_set|].
    split; [apply dict_get_set|].
    intros k v Hdt Hts. apply (body_entries (str_in (lower name))); assumption.
  - destruct (dict_get d "dt") as [dt|]; [|discriminate].
    destruct (dict_get d "ts") as [ts|]; [|discriminate].
    intros [= <-]. exists dt, ts. eexists.
    split; [reflexivity|]. split; [reflexivity|]. split; [reflexivity|].
    split; [rewrite dict_get_set_ne by discriminate; apply dict_get_set|].
    split; [apply dict_get_set|].
    intros k v Hdt Hts.
    apply (body_entries (String.eqb (lower country_name))); assumption.
Qed.

Lemma country_returns_all_matches_witness :
  exists dt ts data,
    dict_get [("Thailand", VDict (examples.counts 322 1 42 279));
              ("South_Korea", VDict (examples.counts 8652 94 1540 7018));
              ("dt", VStr "3/20/20"); ("ts", VInt 1584662400)] "dt" = Some dt /\
    dict_get [("Thailand", VDict (examples.counts 322 1 42 279));
              ("South_Korea", VDict (examples.counts 8652 94 1540 7018));
              ("dt", VStr "3/20/20"); ("ts", VInt 1584662400)] "ts" = Some ts /\
    VDict [("Thailand", VDict (examples.counts 322 1 42 279));
           ("dt", VStr "3/20/20"); ("ts", VInt 1584662400)] = VDict data /\
    dict_get data "dt" = Some dt /\ dict_get data "ts" = Some ts /\
    forall k v, k <> "dt" -> k <> "ts" ->
      (In (k, v) data <->
       In (k, v) [("Thailand", VDict (examples.counts 322 1 42 279));
                  ("South_Korea", VDict (examples.counts 8652 94 1540 7018));
                  ("dt", VStr "3/20/20"); ("ts", VInt 1584662400)] /\
       location_matches examples.pycountry_lookup "th" k = true).
Proof.
  apply (country_returns_all_matches examples.pycountry_lookup
           examples.api_v1 "th"); reflexivity.
Defined.

(** X6. On a current status that is a dict, [/country/{name}] (v1) answers
    404 "Item not found" exactly when the name is taken for a code that
    pycountry cannot resolve, or the current status lacks [dt] or [ts]:
    never because nothing matches. *)
Theorem country_404_iff (pyc : string -> result string)
    (api : NovelCoronaAPI) (country_name : string) (d : dict) :
  v1_get_current_status api false = Ok (VDict d) ->
  country pyc api country_name = item_not_found <->
  (is_code country_name = true /\
   exists exn, lookup_country pyc country_name = Raise exn) \/
  dict_get d "dt" = None \/ dict_get d "ts" = None.
Proof.
  intros Hraw. rewrite (country_on_dict _ _ _ _ Hraw).
  destruct (is_code country_name).
  - destruct (lookup_country pyc country_name) as [name|exn].
    + destruct (dict_get d "dt") as [dt|]; [|tauto].
      destruct (dict_get d "ts") as [ts|]; [|tauto].
      split; [discriminate|].
      intros [(_ & exn & [=])|[[=]|[=]]].
    + split; [|reflexivity]. intros _. left. eauto.
  - destruct (dict_get d "dt") as [dt|]; [|tauto].
    destruct (dict_get d "ts") as [ts|]; [|tauto].
    split; [discriminate|].
    intros [([=] & _)|[[=]|[=]]].
Qed.

Lemma country_404_iff_witness :
  country examples.pycountry_lookup examples.api_v1 "zz" = item_not_found <->
  (is_code "zz" = true /\
   exists exn, lookup_country examples.pycountry_lookup "zz" = Raise exn) \/
  dict_get [("Thailand", VDict (examples.counts 322 1 42 279));
            ("South_Korea", VDict (examples.counts 8652 94 1540 7018));
            ("dt", VStr "3/20/20"); ("ts", VInt 1584662400)] "dt" = None \/
  dict_get [("Thailand", VDict (examples.counts 322 1 42 279));
            ("South_Korea", VDict (examples.counts 8652 94 1540 7018));
            ("dt", VStr "3/20/20"); ("ts", VInt 1584662400)] "ts" = None.
Proof.
  apply (country_404_iff examples.pycountry_lookup examples.api_v1 "zz").
  reflexivity.
Defined.

(** X7. For a supported case, [/timeseries/{case}] (v1) has no 404: when the
    facade's time series lacks that case, or [dt], or [ts], the handler lets
    the KeyError through. *)
Theorem timeseries_missing_key (api : NovelCoronaAPI) (case : string)
    (d : dict) :
  v1_get_time_series api = Ok (VDict d) ->
  in_list (lower case) ["confirmed"; "deaths"; "recovered"] = true ->
  (dict_get d (lower case) = None ->
   timeseries api case = Uncaught (KeyError (lower case))) /\
  (forall series, dict_get d (lower case) = Some series ->
     dict_get d "dt" = None ->
     timeseries api case = Uncaught (KeyError "dt")) /\
  (forall series dt, dict_get d (lower case) = Some series ->
     dict_get d "dt" = Some dt -> dict_get d "ts" = None ->
     timeseries api case = Uncaught (KeyError "ts")).
Proof.
  intros Hraw Hcase. unfold timeseries. rewrite Hraw, Hcase.
  cbn [subscript]. unfold getitem. repeat split.
  - intros ->. reflexivity.
  - intros series -> ->. reflexivity.
  - intros series dt -> -> ->. reflexivity.
Qed.

Lemma timeseries_missing_key_witness :
  timeseries examples.api_v1_no_recovered "Recovered"
  = Uncaught (KeyError "recovered").
Proof.
  apply (timeseries_missing_key examples.api_v1_no_recovered "Recovered"
           [("confirmed", VDict [("Thailand", VInt 322)]);
            ("deaths", VDict [("Thailand", VInt 1)]);
            ("dt", VStr "3/20/20"); ("ts", VInt 1584662400)]);
    reflexivity.
Defined.

End routes.

(** ** More on the cache-aside wrapper *)

Section cache_edges.
Import Py spec main.
Context {M R : Type}.
Variable builder : Z -> result M.
Variable dumps : M -> result bytes.
Variable loads : bytes -> result M.
Variable func : M -> R.

(** X8. The wrapper reads Redis twice on a hit.  When the entry is live at
    the first read and has expired at the second (the clock has passed its
    expiry in between), the call raises a TypeError (unpickling None): the
    builder is not invoked and the store is left as it is. *)
Theorem reload_entry_expires_between_reads (t : call_times) (w : world)
    (en : entry) :
  store w !! "api_2_model" = Some en ->
  ent_value en <> [] ->
  t_check t <= ent_expires en < t_use t ->
  reload_model_api_v2 builder dumps loads func t w
  = (w, Raise (TypeError "a bytes-like object is required, not 'NoneType'")).
Proof using Type.
  intros Hen Hne [Hcheck Huse]. unfold reload_model_api_v2, redis_get.
  rewrite Hen.
  destruct (Z.leb_spec (t_check t) (ent_expires en)); [|lia].
  destruct (Z.leb_spec (t_use t) (ent_expires en)); [lia|].
  destruct (ent_value en); [contradiction|reflexivity].
Qed.

(** One call that finds no live entry and whose build fails. *)
Lemma reload_failed_build (t : call_times) (w : world) :
  truthy (redis_get (t_check t) (store w) "api_2_model") = false ->
  (forall m, builder (t_check t) = Ok m -> exists exn, dumps m = Raise exn) ->
  exists exn,
    reload_model_api_v2 builder dumps loads func t w
    = ({| store := store w; builds := (builds w ++ [t_check t])%list |}, Raise exn).
Proof using Type.
  intros Hmiss Hfail. unfold reload_model_api_v2. rewrite Hmiss. simpl.
  destruct (builder (t_check t)) as [m|exn]; [|eauto].
  destruct (Hfail m eq_refl) as [exn ->]. eauto.
Qed.

(** X9. A failed build is not cached.  Over serialized calls that find no
    live entry and whose build fails (the builder raises, or its result
    cannot be pickled), the store is left as it is and the builder is
    invoked again by every call. *)
Theorem failed_builds_are_retried (ts : list call_times) (w : world) :
  Forall (fun t =>
            truthy (redis_get (t_check t) (store w) "api_2_model") = false /\
            forall m, builder (t_check t) = Ok m ->
                      exists exn, dumps m = Raise exn) ts ->
  fst (serve builder dumps loads func ts w)
  = {| store := store w; builds := (builds w ++ map t_check ts)%list |}.
Proof using Type.
  intros Hts. revert w Hts. induction ts as [|t ts IH]; intros w Hts.
  - simpl. rewrite app_nil_r. destruct w; reflexivity.
  - apply Forall_cons in Hts as [[Hmiss Hfail] Hts]. simpl.
    destruct (reload_failed_build t w Hmiss Hfail) as [exn ->].
    specialize (IH {| store := store w; builds := (builds w ++ [t_check t])%list |}
                   Hts).
    destruct (serve builder dumps loads func ts _) as [w2 rs].
    simpl in *. rewrite IH, <- app_assoc. reflexivity.
Qed.

(** What one call may change. *)
Lemma reload_step (t : call_times) (w : world) :
  let w' := fst (reload_model_api_v2 builder dumps loads func t w) in
  (builds w' = builds w \/ builds w' = (builds w ++ [t_check t])%list) /\
  (forall k, k <> "api_2_model" -> store w' !! k = store w !! k) /\
  (forall en, store w' !! "api_2_model" = Some en ->
     store w !! "api_2_model" = Some en \/
     ent_expires en = t_use t + 3600).
Proof using Type.
  unfold reload_model_api_v2.
  destruct (negb (truthy (redis_get (t_check t) (store w) "api_2_model"))).
  - destruct (builder (t_check t)) as [m|]; simpl; [|auto].
    destruct (dumps m) as [pickled|]; simpl; [|auto].
    split; [auto|]. split.
    + intros k Hk. unfold redis_setex. apply lookup_insert_ne. congruence.
    + intros en. unfold redis_setex. rewrite lookup_insert_eq.
      intros [= <-]. auto.
  - destruct (redis_get (t_use t) (store w) "api_2_model") as [pickled|];
      simpl; [|auto].
    destruct (loads pickled); simpl; auto.
Qed.

(** X10. Whatever the calls and the store they start from, serialized calls
    give one result per call, invoke the builder at most once per call (the
    log of builds grows by a sub-sequence of the calls' times), touch no
    Redis key other than [api_2_model], and only ever store an entry that
    expires 3600 seconds after it was written. *)
Theorem serve_invariants (ts : list call_times) (w : world) :
  let (w', rs) := serve builder dumps loads func ts w in
  length rs = length ts /\
  (exists new, builds w' = (builds w ++ new)%list /\ sublist new (map t_check ts)) /\
  (forall k, k <> "api_2_model" -> store w' !! k = store w !! k) /\
  (forall en, store w' !! "api_2_model" = Some en ->
     store w !! "api_2_model" = Some en \/
     exists t, In t ts /\ ent_expires en = t_use t + 3600).
Proof using Type.
  revert w. induction ts as [|t ts IH]; intros w; simpl.
  - split; [reflexivity|]. split; [|auto].
    exists []. rewrite app_nil_r. split; [reflexivity|constructor].
  - pose proof (reload_step t w) as (Hlog & Hkeys & Hent).
    destruct (reload_model_api_v2 builder dumps loads func t w) as [w1 r].
    simpl in *. specialize (IH w1).
    destruct (serve builder dumps loads func ts w1) as [w2 rs].
    destruct IH as (Hlen & (new & Hnew & Hsub) & Hkeys' & Hent').
    split; [simpl; rewrite Hlen; reflexivity|]. split; [|split].
    + destruct Hlog as [Hlog|Hlog]; rewrite Hlog in Hnew.
      * exists new. split; [exact Hnew|]. apply sublist_cons, Hsub.
      * exists (t_check t :: new). split.
        -- rewrite Hnew, <- app_assoc. reflexivity.
        -- apply sublist_skip, Hsub.
    + intros k Hk. rewrite (Hkeys' k Hk). apply Hkeys, Hk.
    + intros en Hen. destruct (Hent' en Hen) as [Hold|(t' & Hin & Hexp)].
      * destruct (Hent en Hold) as [Hw|Hexp]; [auto|].
        right. exists t. auto.
      * right. exists t'. auto.
Qed.

End cache_edges.

Lemma reload_entry_expires_between_reads_witness :
  main.reload_model_api_v2 examples.builder examples.dumps examples.loads
    Z.succ {| main.t_check := 3601; main.t_use := 3602 |}
    {| main.store := spec.cached [Byte.x80; Byte.x00] 3601;
       main.builds := [0] |}
  = ({| main.store := spec.cached [Byte.x80; Byte.x00] 3601;
        main.builds := [0] |},
     Py.Raise (main.TypeError
                 "a bytes-like object is required, not 'NoneType'")).
Proof.
  apply (reload_entry_expires_between_reads examples.builder examples.dumps
           examples.loads Z.succ
           {| main.t_check := 3601; main.t_use := 3602 |}
           {| main.store := spec.cached [Byte.x80; Byte.x00] 3601;
              main.builds := [0] |}
           {| main.ent_value := [Byte.x80; Byte.x00];
              main.ent_expires := 3601 |}).
  - reflexivity.
  - discriminate.
  - simpl. lia.
Defined.

Lemma failed_builds_are_retried_witness :
  fst (main.serve (fun _ => Py.Raise examples.boom) examples.dumps
         examples.loads Z.succ
         [{| main.t_check := 0; main.t_use := 1 |};
          {| main.t_check := 5; main.t_use := 6 |}] spec.empty_world)
  = {| main.store := main.store spec.empty_world;
       main.builds := (main.builds spec.empty_world ++ [0; 5])%list |}.
Proof.
  apply (failed_builds_are_retried (fun _ => Py.Raise examples.boom)
           examples.dumps examples.loads Z.succ
           [{| main.t_check := 0; main.t_use := 1 |};
            {| main.t_check := 5; main.t_use := 6 |}] spec.empty_world).
  repeat constructor; discriminate.
Defined.

(** ** More on the lookup table *)

Section lookup_table_composition.
Import get_data.
Context `{Countable K} {V : Type}.

Lemma foldl_put_union (data : list (lookup_row K V)) (acc : gmap K V) :
  foldl (fun acc v => <[iso2 v := Country_Region v]> acc) acc data
  = foldl (fun acc v => <[iso2 v := Country_Region v]> acc) ∅ data ∪ acc.
Proof.
  revert acc. induction data as [|v data IH]; intros acc; simpl.
  - rewrite (left_id_L ∅ (∪)). reflexivity.
  - rewrite (IH (<[iso2 v := Country_Region v]> acc)).
    rewrite (IH (<[iso2 v := Country_Region v]> ∅)).
    rewrite insert_empty, <- (assoc_L (∪)), <- insert_union_singleton_l.
    reflexivity.
Qed.

Lemma get_data_lookup_table_keys (data : list (lookup_row K V)) :
  dom (get_data_lookup_table data) = list_to_set (map iso2 data).
Proof.
  unfold get_data_lookup_table.
  rewrite foldl_put_dom, dom_empty_L. apply (left_id_L ∅ (∪)).
Qed.

(** X11. The table of two lists of rows, one after the other, is the table
    of the second list completed by the table of the first: on a code that
    both carry, the later rows win. *)
Theorem get_data_lookup_table_app (rows1 rows2 : list (lookup_row K V)) :
  get_data_lookup_table (rows1 ++ rows2)%list
  = get_data_lookup_table rows2 ∪ get_data_lookup_table rows1.
Proof.
  unfold get_data_lookup_table. rewrite foldl_app. apply foldl_put_union.
Qed.

Lemma get_data_lookup_table_snoc (rows : list (lookup_row K V))
    (row : lookup_row K V) :
  get_data_lookup_table (rows ++ [row])%list
  = <[iso2 row := Country_Region row]> (get_data_lookup_table rows).
Proof. unfold get_data_lookup_table. rewrite foldl_app. reflexivity. Qed.

(** X12. The mapping has at most as many entries as the table has rows.
    When no two rows share a code it has exactly as many, and every row can
    be looked up by its code. *)
Theorem get_data_lookup_table_size (data : list (lookup_row K V)) :
  (size (get_data_lookup_table data) <= length data)%nat /\
  (NoDup (map iso2 data) ->
   size (get_data_lookup_table data) = length data /\
   forall row, In row data ->
     get_data_lookup_table data !! iso2 row = Some (Country_Region row)).
Proof.
  induction data as [|row data [IHle IHeq]] using rev_ind.
  - split; [reflexivity|]. intros _. split; [reflexivity|]. intros row [].
  - rewrite get_data_lookup_table_snoc, length_app. simpl. split.
    + destruct (get_data_lookup_table data !! iso2 row) eqn:Hrow.
      * rewrite map_size_insert_Some by eauto. lia.
      * rewrite map_size_insert_None by exact Hrow. lia.
    + rewrite map_app. simpl. intros Hnd.
      apply NoDup_app in Hnd as (Hnd & Hfresh & _).
      destruct (IHeq Hnd) as [Hsize Hlook].
      assert (Hnew : get_data_lookup_table data !! iso2 row = None).
      { apply not_elem_of_dom.
        rewrite (get_data_lookup_table_keys data).
        rewrite elem_of_list_to_set. intros Hin.
        apply (Hfresh _ Hin). left. }
      split.
      * rewrite map_size_insert_None by exact Hnew. lia.
      * intros r [Hr|[<-|[]]]%in_app_or.
        -- rewrite lookup_insert_ne; [apply Hlook, Hr|].
           intros Heq. apply (Hfresh (iso2 r)).
           ++ apply list_elem_of_In, in_map, Hr.
           ++ rewrite <- Heq. left.
        -- apply lookup_insert_eq.
Qed.

End lookup_table_composition.

Lemma get_data_lookup_table_size_witness :
  size (get_data.get_data_lookup_table
          [get_data.LookupRow "US" "United States";
           get_data.LookupRow "TH" "Thailand"]) = 2%nat.
Proof.
  apply (proj2 (get_data_lookup_table_size
                  [get_data.LookupRow "US" "United States";
                   get_data.LookupRow "TH" "Thailand"])).
  apply (bool_decide_unpack _). vm_compute. exact I.
Defined.

(** ** More on the probe and the daily report *)

Section probe_soundness.
Import Py spec get_data.

Lemma probe_sound (e : env) (fuel : nat) :
  forall (time_delta : nat) (cur : Z) (r : result Z),
    probe fuel e time_delta cur = Some r ->
    match r with
    | Ok d =>
        status_code e d <> 404%nat /\
        (d = cur \/
         exists j, (time_delta <= j)%nat /\ d = utcnow e j - Z.of_nat j /\
                   1 <= d)
    | Raise exn => exn = OverflowError "date value out of range"
    end.
Proof.
  induction fuel as [|fuel IH]; intros time_delta cur r; simpl;
    [discriminate|].
  destruct (Nat.eqb_spec (status_code e cur) 404) as [H404|Hok].
  - unfold date_sub.
    destruct (Z.ltb_spec (utcnow e time_delta - Z.of_nat time_delta) 1)
      as [Hlt|Hge].
    + intros [= <-]. reflexivity.
    + intros Hrun. apply IH in Hrun. destruct r as [d|exn]; [|exact Hrun].
      destruct Hrun as [Hd [->|(j & Hj & -> & Hpos)]].
      * split; [exact Hd|]. right. exists time_delta. split; [lia|].
        split; [reflexivity|lia].
      * split; [exact Hd|]. right. exists j. split; [lia|]. auto.
  - intros [= <-]. auto.
Qed.

(** X13. Whatever the clock does during the call, a date the probe returns
    is a date whose report did not answer 404, and it is a clock reading
    minus the number of days stepped back at that reading (the first reading
    itself when no step was taken), never a date before 0001-01-01. *)
Theorem probe_is_sound (fuel : nat) (e : env) (d : Z) :
  latest_report_date fuel e = Some (Ok d) ->
  status_code e d <> 404%nat /\
  exists j, d = utcnow e j - Z.of_nat j /\ (j = 0%nat \/ 1 <= d).
Proof.
  intros Hrun. apply probe_sound in Hrun as [Hd [->|(j & _ & -> & Hpos)]].
  - split; [exact Hd|]. exists 0%nat. split; [simpl; lia|auto].
  - split; [exact Hd|]. exists j. auto.
Qed.

Lemma probe_is_sound_witness :
  status_code examples.env_old (examples.today - 40) <> 404%nat /\
  exists j, examples.today - 40
            = utcnow examples.env_old j - Z.of_nat j /\
            (j = 0%nat \/ 1 <= examples.today - 40).
Proof.
  apply (probe_is_sound 41 examples.env_old).
  vm_compute. reflexivity.
Defined.

End probe_soundness.

(** ** More on the pre-processing *)

Section preprocess_edges.
Import Py spec get_data.

Lemma Forall2_left {A B} (R : A -> B -> Prop) (P : A -> Prop)
    (l : list A) (k : list B) :
  (forall x y, R x y -> P x) -> Forall2 R l k -> Forall P l.
Proof. intros HRP. induction 1; constructor; eauto. Qed.

Lemma Forall2_right {A B} (R : A -> B -> Prop) (P : B -> Prop)
    (l : list A) (k : list B) :
  (forall x y, R x y -> P y) -> Forall2 R l k -> Forall P k.
Proof. intros HRP. induction 1; constructor; eauto. Qed.

(** X14. The pre-processing returns exactly when the report has the four
    numeric columns and none of their cells is an infinite float or a text,
    other than the empty one, that Python's [int] does not read as a 64-bit
    integer; otherwise the whole function raises: no row is dropped, no cell
    guessed.  A number that does not fit 64 bits is no obstacle. *)
Theorem preprocess_returns_iff (int_of_str : string -> result Z)
    (df : DataFrame) (current_datetime : string) :
  (exists df', preprocess int_of_str df current_datetime = Ok df') <->
  (forall n, In n concerned_columns ->
     exists col,
       dict_get (columns df) n = Some col /\
       Forall (castable int_of_str) col).
Proof.
  split.
  - intros [df' Hrun] n Hn.
    apply preprocess_columns in Hrun as [_ Hcols].
    destruct (Hcols n Hn) as (col & col' & Hcol & _ & Hcast).
    exists col. split; [exact Hcol|].
    rewrite map_map in Hcast. apply mapM_Ok, Forall2_fmap_l in Hcast.
    eapply Forall2_left; [|exact Hcast]. simpl.
    intros c c' Hc. apply cast_cell_castable. eauto.
  - intros Hcols. apply preprocess_returns. exact Hcols.
Qed.



Lemma map_fst_map_cells (f : cell -> cell) (sub : list (string * list cell)) :
  map fst (map_cells f sub) = map fst sub.
Proof. unfold map_cells. rewrite map_map. reflexivity. Qed.

Lemma select_names (df : DataFrame) (names : list string)
    (sub : list (string * list cell)) :
  select df names = Ok sub -> map fst sub = names.
Proof.
  rewrite select_Ok. induction 1 as [|n nc names sub [Hn _] _ IH]; simpl;
    [reflexivity|].
  rewrite Hn, IH. reflexivity.
Qed.

Lemma astype_names (int_of_str : string -> result Z)
    (sub sub' : list (string * list cell)) :
  astype int_of_str sub = Ok sub' -> map fst sub' = map fst sub.
Proof.
  rewrite astype_rel. induction 1 as [|nc nc' sub sub' [Hn _] _ IH]; simpl;
    [reflexivity|].
  rewrite Hn, IH. reflexivity.
Qed.

(** The four assignments a successful pre-processing makes. *)
Lemma preprocess_assignments (int_of_str : string -> result Z)
    (df df' : DataFrame) (current_datetime : string) :
  preprocess int_of_str df current_datetime = Ok df' ->
  exists sub1 sub2 sub3,
    map fst sub1 = concerned_columns /\
    map fst sub2 = concerned_columns /\
    map fst sub3 = concerned_columns /\
    df' = assign (assign (assign (assign df sub1) sub2) sub3)
                 [("Last_Update",
                   repeat (CStr current_datetime) (index df))].
Proof.
  unfold preprocess. intros Hrun.
  apply bind_Ok in Hrun as (sub1 & Hs1 & Hrun).
  apply bind_Ok in Hrun as (sub2 & Hs2 & Hrun).
  apply bind_Ok in Hrun as (sub3 & Hs3 & Hrun).
  apply bind_Ok in Hrun as (sub4 & Hcast & Hrun).
  exists (map_cells fillna0 sub1), (map_cells replace_empty0 sub2), sub4.
  repeat split.
  - rewrite map_fst_map_cells. apply (select_names _ _ _ Hs1).
  - rewrite map_fst_map_cells. apply (select_names _ _ _ Hs2).
  - rewrite (astype_names _ _ _ Hcast). apply (select_names _ _ _ Hs3).
  - rewrite !assign_index in Hrun. congruence.
Qed.

(** X16. A successful pre-processing overwrites [Last_Update] in every row
    with the date it is given, whatever the report said, and leaves every
    column other than the four numeric ones and [Last_Update] as it was, as
    well as the number of rows. *)
Theorem preprocess_frame (int_of_str : string -> result Z)
    (df df' : DataFrame) (current_datetime : string) :
  preprocess int_of_str df current_datetime = Ok df' ->
  index df' = index df /\
  dict_get (columns df') "Last_Update"
    = Some (repeat (CStr current_datetime) (index df)) /\
  forall n, ~ In n concerned_columns -> n <> "Last_Update" ->
    dict_get (columns df') n = dict_get (columns df) n.
Proof.
  intros Hrun.
  apply preprocess_assignments in Hrun
    as (sub1 & sub2 & sub3 & H1 & H2 & H3 & ->).
  split; [rewrite !assign_index; reflexivity|]. split.
  - apply assign_get; [|left; reflexivity].
    simpl. apply NoDup_singleton.
  - intros n Hn Hlast.
    rewrite assign_other by (simpl; intuition congruence).
    rewrite assign_other by (rewrite H3; exact Hn).
    rewrite assign_other by (rewrite H2; exact Hn).
    rewrite assign_other by (rewrite H1; exact Hn).
    reflexivity.
Qed.

Lemma preprocess_frame_witness :
  exists df',
    preprocess examples.int_of_str examples.report "03-19-2020" = Ok df' /\
    index df' = index examples.report /\
    dict_get (columns df') "Last_Update"
      = Some (repeat (CStr "03-19-2020") (index examples.report)) /\
    forall n, ~ In n concerned_columns -> n <> "Last_Update" ->
      dict_get (columns df') n = dict_get (columns examples.report) n.
Proof.
  eexists. split; [reflexivity|].
  apply (preprocess_frame examples.int_of_str examples.report _ "03-19-2020").
  reflexivity.
Defined.

Lemma dict_set_same {V} (d : list (string * V)) (k : string) (v : V) :
  dict_get d k = Some v -> dict_set d k v = d.
Proof.
  induction d as [|[k' v'] d IH]; simpl; [discriminate|].
  destruct (String.eqb_spec k' k) as [->|Hne].
  - intros [= ->]. reflexivity.
  - intros Hd. rewrite (IH Hd). reflexivity.
Qed.

Lemma assign_same (sub : list (string * list cell)) (df : DataFrame) :
  (forall nc, In nc sub -> dict_get (columns df) (fst nc) = Some (snd nc)) ->
  assign df sub = df.
Proof.
  induction sub as [|nc sub IH]; intros Hsub; [reflexivity|].
  change (assign {| index := index df;
                    columns := dict_set (columns df) (fst nc) (snd nc) |} sub
          = df).
  rewrite dict_set_same by (apply Hsub; left; reflexivity).
  destruct df as [i cols]. apply IH. intros nc' Hnc'. apply Hsub. right.
  exact Hnc'.
Qed.

Lemma map_cells_id (f : cell -> cell) (sub : list (string * list cell)) :
  (forall nc, In nc sub -> Forall (fun c => f c = c) (snd nc)) ->
  map_cells f sub = sub.
Proof.
  induction sub as [|[n col] sub IH]; intros Hsub; [reflexivity|]. simpl.
  rewrite IH by (intros nc Hnc; apply Hsub; right; exact Hnc).
  f_equal. f_equal.
  specialize (Hsub (n, col) (or_introl eq_refl)). simpl in Hsub.
  induction Hsub as [|c col Hc _ IHcol]; simpl; [reflexivity|].
  rewrite Hc, IHcol. reflexivity.
Qed.

Lemma mapM_id {A} (f : A -> result A) (l : list A) :
  Forall (fun x => f x = Ok x) l -> mapM f l = Ok l.
Proof.
  induction 1 as [|x l Hx _ IH]; simpl; [reflexivity|].
  rewrite Hx. simpl. rewrite IH. reflexivity.
Qed.

Lemma astype_id (int_of_str : string -> result Z)
    (sub : list (string * list cell)) :
  (forall nc, In nc sub ->
     Forall (fun c => astype_int int_of_str c = Ok c) (snd nc)) ->
  astype int_of_str sub = Ok sub.
Proof.
  intros Hsub. unfold astype. apply mapM_id, Forall_forall.
  intros [n col] Hnc. apply list_elem_of_In in Hnc.
  rewrite (mapM_id _ _ (Hsub _ Hnc)). reflexivity.
Qed.

(** The cells of the numeric columns after a successful pre-processing. *)
Lemma preprocess_int64_columns (int_of_str : string -> result Z)
    (df df' : DataFrame) (current_datetime : string) :
  preprocess int_of_str df current_datetime = Ok df' ->
  forall n, In n concerned_columns ->
    exists col',
      dict_get (columns df') n = Some col' /\
      Forall (fun c => exists z, c = CInt z /\ - 2 ^ 63 <= z < 2 ^ 63) col'.
Proof.
  intros Hrun n Hn. apply preprocess_columns in Hrun as [_ Hcols].
  destruct (Hcols n Hn) as (col & col' & _ & Hcol' & Hcast).
  exists col'. split; [exact Hcol'|].
  rewrite map_map in Hcast. apply mapM_Ok, Forall2_fmap_l in Hcast.
  eapply Forall2_right; [|exact Hcast]. simpl.
  intros c c' (z & -> & Hr & _)%cast_cell. eauto.
Qed.

(** X17. The pre-processing is idempotent: applied, with the same date, to
    a table it has returned, it returns that table unchanged. *)
Theorem preprocess_idempotent (int_of_str : string -> result Z)
    (df df' : DataFrame) (current_datetime : string) :
  preprocess int_of_str df current_datetime = Ok df' ->
  preprocess int_of_str df' current_datetime = Ok df'.
Proof.
  intros Hrun.
  pose proof (preprocess_int64_columns _ _ _ _ Hrun) as Hint.
  assert (Hlast : dict_get (columns df') "Last_Update"
                  = Some (repeat (CStr current_datetime) (index df'))).
  { apply preprocess_assignments in Hrun
      as (sub1 & sub2 & sub3 & _ & _ & _ & ->).
    rewrite !assign_index.
    apply assign_get; [simpl; apply NoDup_singleton|left; reflexivity]. }
  destruct (select_total df' concerned_columns) as [sub Hsel].
  { intros n Hn. destruct (Hint n Hn) as (col & Hcol & _). eauto. }
  assert (Hsub : forall nc, In nc sub ->
            dict_get (columns df') (fst nc) = Some (snd nc) /\
            Forall (fun c => exists z, c = CInt z /\ - 2 ^ 63 <= z < 2 ^ 63)
                   (snd nc)).
  { intros nc Hnc. destruct (select_In _ _ _ _ Hsel Hnc) as [Hn Hcol].
    split; [exact Hcol|]. destruct (Hint _ Hn) as (col' & Hcol' & Hcells).
    congruence. }
  assert (Hfill : map_cells fillna0 sub = sub).
  { apply map_cells_id. intros nc Hnc. destruct (Hsub nc Hnc) as [_ Hcells].
    eapply Forall_impl; [exact Hcells|]. intros c (z & -> & _). reflexivity. }
  assert (Hrepl : map_cells replace_empty0 sub = sub).
  { apply map_cells_id. intros nc Hnc. destruct (Hsub nc Hnc) as [_ Hcells].
    eapply Forall_impl; [exact Hcells|]. intros c (z & -> & _). reflexivity. }
  assert (Hcast : astype int_of_str sub = Ok sub).
  { apply astype_id. intros nc Hnc. destruct (Hsub nc Hnc) as [_ Hcells].
    eapply Forall_impl; [exact Hcells|]. intros c (z & -> & Hz). simpl.
    rewrite wrap64_fits by exact Hz. reflexivity. }
  assert (Hassign : assign df' sub = df').
  { apply assign_same. intros nc Hnc. apply (Hsub nc Hnc). }
  unfold preprocess.
  eapply bind_Ok_intro; [exact Hsel|]. cbv zeta. rewrite Hfill, Hassign.
  eapply bind_Ok_intro; [exact Hsel|]. cbv zeta. rewrite Hrepl, Hassign.
  eapply bind_Ok_intro; [exact Hsel|].
  eapply bind_Ok_intro; [exact Hcast|]. cbv zeta. rewrite Hassign.
  rewrite assign_same; [reflexivity|].
  intros nc [<-|[]]. exact Hlast.
Qed.

Lemma preprocess_idempotent_witness :
  exists df',
    preprocess examples.int_of_str examples.report "03-19-2020" = Ok df' /\
    preprocess examples.int_of_str df' "03-19-2020" = Ok df'.
Proof.
  eexists. split; [reflexivity|].
  apply (preprocess_idempotent examples.int_of_str examples.report _
           "03-19-2020").
  reflexivity.
Defined.

End preprocess_edges.

(** ** The time-series tables *)

Section time_series.
Import Py spec get_data.

Lemma dict_get_fillna_df (df : DataFrame) (n : string) :
  dict_get (columns (fillna_df df)) n
  = option_map (map fillna_empty) (dict_get (columns df) n).
Proof.
  unfold fillna_df. simpl.
  induction (columns df) as [|[n' col] cols IH]; simpl; [reflexivity|].
  destruct (String.eqb n' n); [reflexivity|exact IH].
Qed.

Lemma fillna_df_no_NaN (df : DataFrame) (n : string) (col : list cell) :
  In (n, col) (columns (fillna_df df)) -> ~ In NaN col.
Proof.
  unfold fillna_df. simpl. rewrite in_map_iff.
  intros ([n' col'] & [= <- <-] & _). rewrite in_map_iff.
  intros ([] & Hc & _); discriminate.
Qed.

Lemma time_series_loop_Ok (read : string -> result DataFrame)
    (categories : list string) :
  forall (acc dataframes : list (string * DataFrame)),
    time_series_loop read categories acc = Ok dataframes ->
    (forall c, In c categories ->
       exists raw, read c = Ok raw /\
                   dict_get dataframes c = Some (fillna_df raw)) /\
    (forall k, ~ In k categories -> dict_get dataframes k = dict_get acc k).
Proof.
  induction categories as [|category categories IH]; intros acc dataframes.
  - intros [= <-]. split; [intros c []|reflexivity].
  - cbn [time_series_loop]. intros (raw & Hraw & Hloop)%bind_Ok.
    cbv zeta in Hloop. destruct (IH _ _ Hloop) as [Hin Hout]. split.
    + intros c [<-|Hc]; [|apply Hin, Hc].
      destruct (in_dec string_dec category categories) as [Hdup|Hfresh];
        [apply Hin, Hdup|].
      exists raw. split; [exact Hraw|].
      rewrite (Hout _ Hfresh). apply dict_get_set.
    + intros k Hk. rewrite Hout by (simpl in Hk; tauto).
      apply dict_get_set_ne. simpl in Hk. tauto.
Qed.

(** X18. When [get_data_time_series] returns, every category's table was
    read, the result maps each category to its table with the missing cells
    replaced by the empty string and nothing else changed, it has no other
    key, and no cell of any table is missing.  One table that cannot be read
    is thus enough for the function to raise. *)
Theorem get_data_time_series_tables (CATEGORIES : list string)
    (read : string -> result DataFrame)
    (dataframes : list (string * DataFrame)) :
  get_data_time_series CATEGORIES read = Ok dataframes ->
  (forall c, In c CATEGORIES ->
     exists raw, read c = Ok raw /\
                 dict_get dataframes c = Some (fillna_df raw)) /\
  (forall k, ~ In k CATEGORIES -> dict_get dataframes k = None) /\
  (forall k df n col,
     dict_get dataframes k = Some df -> In (n, col) (columns df) ->
     ~ In NaN col).
Proof.
  intros Hrun. apply time_series_loop_Ok in Hrun as [Hin Hout].
  split; [exact Hin|]. split; [exact Hout|].
  intros k df n col Hk Hcol.
  destruct (in_dec string_dec k CATEGORIES) as [Hcat|Hcat].
  - destruct (Hin k Hcat) as (raw & _ & Hdf).
    assert (df = fillna_df raw) as -> by congruence.
    apply (fillna_df_no_NaN _ _ _ Hcol).
  - rewrite (Hout k Hcat) in Hk. discriminate.
Qed.

Lemma get_data_time_series_tables_witness :
  exists dataframes,
    get_data_time_series examples.CATEGORIES examples.read_us = Ok dataframes /\
    (forall c, In c examples.CATEGORIES ->
       exists raw, examples.read_us c = Ok raw /\
                   dict_get dataframes c = Some (fillna_df raw)) /\
    (forall k, ~ In k examples.CATEGORIES -> dict_get dataframes k = None) /\
    (forall k df n col,
       dict_get dataframes k = Some df -> In (n, col) (columns df) ->
       ~ In NaN col).
Proof.
  eexists. split; [reflexivity|].
  apply (get_data_time_series_tables examples.CATEGORIES examples.read_us).
  reflexivity.
Defined.

Lemma dict_set_keys {V} (d : list (string * V)) (k0 k : string) (v0 : V) :
  In k (map fst (dict_set d k0 v0)) -> k = k0 \/ In k (map fst d).
Proof.
  induction d as [|[k1 v1] d IH]; simpl.
  - intros [<-|[]]. auto.
  - destruct (String.eqb k1 k0); simpl; [tauto|].
    intros [<-|Hin]; [auto|]. destruct (IH Hin); auto.
Qed.

Lemma cast_columns_rel (cast : cell -> result cell)
    (sub sub' : list (string * list cell)) :
  cast_columns cast sub = Ok sub' ->
  Forall2 (fun nc nc' => fst nc' = fst nc /\
                         mapM cast (snd nc) = Ok (snd nc')) sub sub'.
Proof.
  unfold cast_columns. rewrite mapM_Ok. intros Hrel.
  eapply Forall2_impl; [exact Hrel|]. simpl. intros nc [n' c'].
  destruct (mapM cast (snd nc)); simpl; [|discriminate].
  intros [= <- <-]. auto.
Qed.

Lemma astype_float_Ok (to_float : cell -> result cell) (c c' : cell) :
  astype_float to_float (fillna_empty c) = Ok c' ->
  c <> NaN /\ c <> CStr EmptyString.
Proof.
  destruct c as [| | | |[|a s]]; simpl; try discriminate;
    intros _; split; discriminate.
Qed.

Lemma US_time_series_loop_Ok (to_float : cell -> result cell)
    (read : string -> result DataFrame) (categories : list string) :
  forall (acc dataframes : list (string * DataFrame)),
    US_time_series_loop to_float read categories acc = Ok dataframes ->
    (forall c, In c categories ->
       exists raw,
         read c = Ok raw /\
         forall n, In n ["Lat"; "Long_"] ->
           exists col,
             dict_get (columns raw) n = Some col /\
             Forall (fun x => x <> NaN /\ x <> CStr EmptyString) col) /\
    (forall k, In k (map fst dataframes) ->
       In k categories \/ In k (map fst acc)).
Proof.
  induction categories as [|category categories IH]; intros acc dataframes.
  - intros [= <-]. split; [intros c []|auto].
  - cbn [US_time_series_loop]. intros (raw & Hraw & Hloop)%bind_Ok.
    cbv zeta in Hloop.
    apply bind_Ok in Hloop as (sub & Hsel & Hloop).
    apply bind_Ok in Hloop as (sub' & Hcast & Hloop).
    destruct (IH _ _ Hloop) as [Hin Hkeys]. split.
    + intros c [<-|Hc]; [|apply Hin, Hc].
      exists raw. split; [exact Hraw|]. intros n Hn.
      apply select_Ok in Hsel. apply cast_columns_rel in Hcast.
      destruct (round_columns
                  (fun c c' => mapM (astype_float to_float) c = Ok c')
                  (fillna_df raw) _ _ _ Hsel Hcast) as [_ Hcols].
      destruct (Hcols n Hn) as (col & col' & Hcol & _ & Hcol').
      rewrite dict_get_fillna_df in Hcol.
      destruct (dict_get (columns raw) n) as [col0|]; [|discriminate].
      injection Hcol as <-. exists col0. split; [reflexivity|].
      apply mapM_Ok, Forall2_fmap_l in Hcol'.
      eapply Forall2_left; [|exact Hcol']. simpl.
      intros x y Hxy. apply (astype_float_Ok _ _ _ Hxy).
    + intros k Hk. destruct (Hkeys k Hk) as [Hc|Hacc]; [simpl; auto|].
      apply dict_set_keys in Hacc as [<-|Hacc]; simpl; auto.
Qed.

(** X19. When [get_US_time_series] returns, its keys are among the
    categories other than the last one, and every table it read has the
    columns [Lat] and [Long_] without a missing or empty cell: a single
    missing latitude or longitude makes the function raise. *)
Theorem get_US_time_series_tables (CATEGORIES : list string)
    (to_float : cell -> result cell) (read : string -> result DataFrame)
    (dataframes : list (string * DataFrame)) :
  get_US_time_series CATEGORIES to_float read = Ok dataframes ->
  (forall k, In k (map fst dataframes) -> In k (removelast CATEGORIES)) /\
  (forall c, In c (removelast CATEGORIES) ->
     exists raw,
       read c = Ok raw /\
       forall n, In n ["Lat"; "Long_"] ->
         exists col,
           dict_get (columns raw) n = Some col /\
           Forall (fun x => x <> NaN /\ x <> CStr EmptyString) col).
Proof.
  intros Hrun. apply US_time_series_loop_Ok in Hrun as [Hin Hkeys].
  split; [|exact Hin].
  intros k Hk. destruct (Hkeys k Hk) as [Hc|[]]. exact Hc.
Qed.

Lemma get_US_time_series_tables_witness :
  exists dataframes,
    get_US_time_series examples.CATEGORIES examples.to_float examples.read_us
      = Ok dataframes /\
    (forall k, In k (map fst dataframes) ->
               In k (removelast examples.CATEGORIES)) /\
    (forall c, In c (removelast examples.CATEGORIES) ->
       exists raw,
         examples.read_us c = Ok raw /\
         forall n, In n ["Lat"; "Long_"] ->
           exists col,
             dict_get (columns raw) n = Some col /\
             Forall (fun x => x <> NaN /\ x <> CStr EmptyString) col).
Proof.
  eexists. split; [reflexivity|].
  apply (get_US_time_series_tables examples.CATEGORIES examples.to_float
           examples.read_us).
  reflexivity.
Defined.

End time_series.

(** ** The clean-up of country names *)

Section country_names.
Import Py spec get_data.

Lemma has_char_replace_spaces (s : string) :
  has_char " " (replace_spaces s) = false.
Proof.
  induction s as [|c s IH]; simpl; [reflexivity|]. rewrite IH.
  destruct (Ascii.eqb_spec c " ") as [->|Hc]; [reflexivity|].
  destruct (Ascii.eqb_spec c " "); [contradiction|reflexivity].
Qed.

Lemma replace_spaces_no_space (s : string) :
  has_char " " s = false -> replace_spaces s = s.
Proof.
  induction s as [|c s IH]; simpl; [reflexivity|].
  intros [Hc Hs]%orb_false_iff. rewrite Hc, (IH Hs). reflexivity.
Qed.

Lemma isspace_space (c : ascii) : Ascii.eqb c " " = true -> isspace c = true.
Proof. intros ->%Ascii.eqb_eq. reflexivity. Qed.

Lemma rstrip_idempotent (s : string) : rstrip (rstrip s) = rstrip s.
Proof.
  induction s as [|c s IH]; simpl; [reflexivity|].
  destruct (rstrip s) as [|c' r] eqn:Hr.
  - destruct (isspace c) eqn:Hc; simpl; [reflexivity|]. rewrite Hc.
    reflexivity.
  - cbn [rstrip] in *. rewrite IH. reflexivity.
Qed.

Lemma lstrip_rstrip (s : string) :
  lstrip s = s -> lstrip (rstrip s) = rstrip s.
Proof.
  destruct s as [|c s]; simpl; [reflexivity|].
  destruct (isspace c) eqn:Hc.
  - intros Heq. exfalso.
    assert (Hlen : forall t, (String.length (lstrip t) <= String.length t)%nat).
    { induction t as [|a t IHt]; simpl; [lia|].
      destruct (isspace a); simpl; lia. }
    specialize (Hlen s). rewrite Heq in Hlen. simpl in Hlen. lia.
  - intros _. destruct (rstrip s); simpl; rewrite Hc; reflexivity.
Qed.

Lemma lstrip_replace_spaces (s : string) :
  lstrip s = s -> lstrip (replace_spaces s) = replace_spaces s.
Proof.
  destruct s as [|c s]; simpl; [reflexivity|].
  destruct (isspace c) eqn:Hc.
  - intros Heq. exfalso.
    assert (Hlen : forall t, (String.length (lstrip t) <= String.length t)%nat).
    { induction t as [|a t IHt]; simpl; [lia|].
      destruct (isspace a); simpl; lia. }
    specialize (Hlen s). rewrite Heq in Hlen. simpl in Hlen. lia.
  - intros _. destruct (Ascii.eqb c " ") eqn:Hsp.
    + apply isspace_space in Hsp. congruence.
    + rewrite Hc. reflexivity.
Qed.

Lemma replace_spaces_empty (s : string) :
  replace_spaces s = EmptyString -> s = EmptyString.
Proof. destruct s; [reflexivity|discriminate]. Qed.

Lemma rstrip_replace_spaces (s : string) :
  rstrip s = s -> rstrip (replace_spaces s) = replace_spaces s.
Proof.
  induction s as [|c s IH]; simpl; [reflexivity|].
  destruct (rstrip s) as [|c' r] eqn:Hr.
  - destruct (isspace c) eqn:Hc; [discriminate|]. intros [= <-]. simpl.
    destruct (Ascii.eqb c " ") eqn:Hsp.
    + apply isspace_space in Hsp. congruence.
    + rewrite Hc. reflexivity.
  - intros [= <-]. rewrite (IH eq_refl).
    destruct (replace_spaces (String c' r)) eqn:Hrep; [discriminate|].
    reflexivity.
Qed.

Lemma lstrip_no_space (s : string) :
  (forall c, has_char c s = true -> isspace c = false) -> lstrip s = s.
Proof.
  destruct s as [|c s]; simpl; [reflexivity|]. intros Hs.
  rewrite (Hs c); [reflexivity|]. rewrite Ascii.eqb_refl. reflexivity.
Qed.

Lemma rstrip_no_space (s : string) :
  (forall c, has_char c s = true -> isspace c = false) -> rstrip s = s.
Proof.
  induction s as [|c s IH]; simpl; [reflexivity|]. intros Hs.
  rewrite IH by (intros a Ha; apply Hs; rewrite Ha; apply orb_true_r).
  destruct s; [|reflexivity].
  rewrite (Hs c); [reflexivity|]. rewrite Ascii.eqb_refl. reflexivity.
Qed.

(** X20. The clean-up of an ASCII country name leaves no space in it (each
    space left after stripping becomes one underscore), leaves a name
    without white space as it is, and is idempotent. *)
Theorem clean_country_name_properties (country_name : string) :
  is_ascii country_name = true ->
  has_char " " (clean_country_name country_name) = false /\
  String.length (clean_country_name country_name)
    = String.length (strip country_name) /\
  ((forall c, has_char c country_name = true -> isspace c = false) ->
   clean_country_name country_name = country_name) /\
  clean_country_name (clean_country_name country_name)
    = clean_country_name country_name.
Proof.
  intros _. unfold clean_country_name, strip.
  split; [|split; [|split]].
  - apply has_char_replace_spaces.
  - induction (rstrip (lstrip country_name)) as [|c s IH]; simpl;
      [reflexivity|]. rewrite IH. reflexivity.
  - intros Hs. rewrite (lstrip_no_space _ Hs), (rstrip_no_space _ Hs).
    apply replace_spaces_no_space.
    destruct (has_char " " country_name) eqn:Hsp; [|reflexivity].
    apply Hs in Hsp. discriminate.
  - set (t := rstrip (lstrip country_name)).
    assert (Hl : lstrip t = t).
    { apply lstrip_rstrip.
      clear t. induction country_name as [|c s IH]; simpl; [reflexivity|].
      destruct (isspace c) eqn:Hc; [exact IH|]. simpl. rewrite Hc.
      reflexivity. }
    assert (Hr : rstrip t = t) by apply rstrip_idempotent.
    rewrite (lstrip_replace_spaces _ Hl), (rstrip_replace_spaces _ Hr).
    apply replace_spaces_no_space, has_char_replace_spaces.
Qed.

End country_names.

Lemma clean_country_name_properties_witness :
  get_data.clean_country_name "Thailand" = "Thailand".
Proof.
  apply (proj1 (proj2 (proj2 (clean_country_name_properties "Thailand"
                                eq_refl)))).
  intros [[] [] [] [] [] [] [] []] Hc; vm_compute in *; congruence.
Defined.

Lemma preprocess_returns_iff_witness :
  exists col,
    Py.dict_get (get_data.columns examples.report) "Active" = Some col /\
    Forall (spec.castable examples.int_of_str) col.
Proof.
  apply (proj1 (preprocess_returns_iff examples.int_of_str examples.report
                  "03-19-2020")).
  - eexists. reflexivity.
  - simpl. auto.
Defined.
